(** * google.appengine.api.modules: a shallow embedding of modules.py

    The Python module is a thin client of the App Engine Admin API.  Its
    local logic is: reading identity facts from [os.environ], translating
    HTTP statuses into the module's exceptions, selecting the default
    version from a traffic split, running the mutating calls on a thread
    behind a [_ThreadedRpc] handle, and composing hostnames.

    Modelling choices, all fixed here once:
    - [os.environ] is a finite map from names to values ([gmap string string]);
    - a Python [str] is a [string] (its UTF-8 bytes, whose byte-wise
      lexicographic order is the code-point order Python's [<] uses);
    - a JSON number is an exact rational ([Q]); Python compares [int] and
      [float] by value, and JSON has no NaN or infinity;
    - a response dict is a record of the keys the module reads, each
      optional, typed after the Admin API resource it belongs to;
    - a dict that is iterated (the allocations) is an association list in
      iteration order;
    - exceptions are values of [exn]; a call returns [Ok v] or [Raise e];
    - the remote API is an oracle [api] from requests to outcomes, and
      every call that leaves the process, and every thread start, is
      appended to a trace;
    - the thread of a [_ThreadedRpc] runs its body either when it is started
      or when it is waited for, as the scheduler ([eager]) decides. *)

From Stdlib Require Import ZArith QArith Lqa Lia Bool List Ascii String.
From Stdlib Require OrdersEx.
From stdpp Require Import base option list gmap strings.

Import ListNotations.
Local Open Scope string_scope.
Local Open Scope list_scope.

(** ** Python values and string helpers *)

Module Py.

(** The values the [instances] argument of the setter can take. *)
Inductive value :=
| PyNone
| PyBool (b : bool)
| PyInt (n : Z)
| PyFloat (x : Q)
| PyStr (s : string).

(** [isinstance(v, six.integer_types)]: on Python 3 [six.integer_types]
    is [(int,)], and [bool] is a subclass of [int]. *)
Definition isinstance_integer_types (v : value) : bool :=
  match v with
  | PyInt _ | PyBool _ => true
  | PyNone | PyFloat _ | PyStr _ => false
  end.

(** Truth value of an optional string: [None] and [''] are falsy. *)
Definition truthy (x : option string) : bool :=
  match x with
  | Some (String _ _) => true
  | Some EmptyString | None => false
  end.

(** [x or y]. *)
Definition or_ (x y : option string) : option string :=
  if truthy x then x else y.

(** [s.split(sep)] and [s.split(sep, maxsplit)] for a one-character
    separator; [maxsplit = None] stands for the unbounded form. *)
Fixpoint split (sep : ascii) (maxsplit : option nat) (s : string) : list string :=
  match s with
  | EmptyString => [EmptyString]
  | String c rest =>
      if Ascii.eqb c sep then
        match maxsplit with
        | Some O => [s]
        | Some (S k) => EmptyString :: split sep (Some k) rest
        | None => EmptyString :: split sep None rest
        end
      else
        match split sep maxsplit rest with
        | piece :: pieces => String c piece :: pieces
        | [] => [String c EmptyString]
        end
  end.

(** [sep.join(parts)]. *)
Fixpoint join (sep : string) (parts : list string) : string :=
  match parts with
  | [] => EmptyString
  | [p] => p
  | p :: ps => p ++ sep ++ join sep ps
  end.

(** The prefix of [s] before the first [sep] (all of [s] without one). *)
Fixpoint before (sep : ascii) (s : string) : string :=
  match s with
  | EmptyString => EmptyString
  | String c rest => if Ascii.eqb c sep then EmptyString else String c (before sep rest)
  end.

End Py.

(** ** Exceptions *)

(** The argument an exception of the module is built with: a message, or
    the [HttpError] it translates (kept by its [resp.status]). *)
Inductive exc_arg :=
| Msg (s : string)
| FromHttp (status : Z).

Inductive exn :=
| Error (a : exc_arg)
| InvalidModuleError (a : exc_arg)
| InvalidVersionError (a : exc_arg)
| InvalidInstancesError (a : exc_arg)
| UnexpectedStateError (a : exc_arg)
| TransientError (a : exc_arg)
| TypeError (msg : string)
| KeyError (key : string)
| AttributeError (msg : string)
| IndexError (msg : string)
| HttpError (status : Z)
| ClientException (descr : string).

Inductive result (A : Type) :=
| Ok (a : A)
| Raise (e : exn).
Arguments Ok {A} a.
Arguments Raise {A} e.

Definition raises {A} (r : result A) : Prop :=
  match r with Ok _ => False | Raise _ => True end.

(** ** The remote API: requests, responses, outcomes *)

Inductive patch_body :=
| ManualScalingBody (instances : Py.value)
| ServingStatusBody (servingStatus : string).

Inductive request :=
| AppsGet (appsId : string)
| ServicesGet (appsId : string) (servicesId : string)
| VersionsGet (appsId : string) (servicesId versionsId : option string)
| VersionsPatch (appsId : string) (servicesId versionsId : option string)
    (updateMask : string) (body : patch_body).

Record traffic_split := { allocations : option (list (string * Q)) }.
Record manual_scaling := { instances : option Z }.

Record response := {
  split : option traffic_split;
  manualScaling : option manual_scaling;
  defaultHostname : option string
}.

Definition empty_response : response :=
  {| split := None; manualScaling := None; defaultHostname := None |}.

(** What [request.execute()] does: return the decoded body, raise
    [errors.HttpError] with a status, or raise something else. *)
Inductive outcome :=
| Returned (r : response)
| HttpFailure (status : Z)
| OtherFailure (descr : string).

(** ** The process: environment, oracle, scheduler; trace and handles *)

Inductive event :=
| DiscoveryBuild
| Execute (r : request)
| ThreadStart (id : nat).

(** The closure [run_request] of the three asynchronous functions, by the
    variables it captures. *)
Record target := {
  t_project_id : string;
  t_module : option string;
  t_version : option string;
  t_body : patch_body;
  t_update_mask : string
}.

(** A [_ThreadedRpc] object.  [thread = Some t] while the thread has been
    started and its body has not yet run to its end. *)
Record _ThreadedRpc := {
  thread : option target;
  exception : option exn;
  done : bool
}.

Record world := {
  trace : list event;
  rpcs : list _ThreadedRpc
}.

(** [eager] is the scheduler's choice: whether a started thread runs to
    its end at once, or only when somebody waits for it. *)
Record ctx := {
  environ : gmap string string;
  api : request -> outcome;
  eager : bool
}.

Definition M (A : Type) : Type := ctx -> world -> result A * world.

Definition ret {A} (a : A) : M A := fun _ w => (Ok a, w).
Definition raise {A} (e : exn) : M A := fun _ w => (Raise e, w).
Definition bind {A B} (m : M A) (k : A -> M B) : M B :=
  fun c w =>
    match m c w with
    | (Ok a, w') => k a c w'
    | (Raise e, w') => (Raise e, w')
    end.
Definition lift {A} (f : gmap string string -> result A) : M A :=
  fun c w => (f (environ c), w).
Definition log (ev : event) : M unit :=
  fun _ w => (Ok tt, {| trace := trace w ++ [ev]; rpcs := rpcs w |}).

Declare Scope py_scope.
Delimit Scope py_scope with py.
Notation "x <- m ;; k" := (bind m (fun x => k))
  (at level 100, m at next level, k at level 200, right associativity) : py_scope.
Notation "m ;; k" := (bind m (fun _ => k))
  (at level 100, k at level 200, right associativity) : py_scope.
Local Open Scope py_scope.

(** [try: body  except errors.HttpError as e: handler(e)]. *)
Definition except_HttpError {A} (body : M A) (handler : Z -> M A) : M A :=
  fun c w =>
    match body c w with
    | (Raise (HttpError status), w') => handler status c w'
    | r => r
    end.

(** [discovery.build('appengine', 'v1')]. *)
Definition discovery_build : M unit := log DiscoveryBuild.

(** [request.execute()]. *)
Definition execute (r : request) : M response :=
  fun c w =>
    let w' := {| trace := trace w ++ [Execute r]; rpcs := rpcs w |} in
    match api c r with
    | Returned resp => (Ok resp, w')
    | HttpFailure status => (Raise (HttpError status), w')
    | OtherFailure descr => (Raise (ClientException descr), w')
    end.

(** ** Error translation *)

(** [_raise_error(e)], by [e.resp.status]: the exception it builds, and
    the raising of it. *)
Definition _raise_error_exn (status : Z) : exn :=
  if (status =? 400)%Z then InvalidInstancesError (FromHttp status)
  else if (status =? 404)%Z then InvalidVersionError (FromHttp status)
  else if (500 <=? status)%Z then TransientError (FromHttp status)
  else Error (FromHttp status).

Definition _raise_error {A} (status : Z) : M A := raise (_raise_error_exn status).

(** ** Identity resolution *)

(** [os.environ[key]]. *)
Definition getitem (env : gmap string string) (key : string) : result string :=
  match env !! key with
  | Some v => Ok v
  | None => Raise (KeyError key)
  end.

(** [l[i]], for [i >= 0]. *)
Definition index {A} (l : list A) (i : nat) : result A :=
  match l !! i with
  | Some x => Ok x
  | None => Raise (IndexError "list index out of range")
  end.

Definition _get_project_id (env : gmap string string) : result string :=
  match Py.or_ (env !! "GAE_PROJECT") (env !! "GOOGLE_CLOUD_PROJECT") with
  | Some project_id => Ok project_id
  | None =>
      match env !! "GAE_APPLICATION" with
      | None => Raise (AttributeError "'NoneType' object has no attribute 'split'")
      | Some app_id => index (Py.split "~" (Some 1%nat) app_id) 1
      end
  end.

Definition get_current_module_name (env : gmap string string) : result (option string) :=
  Ok (Py.or_ (env !! "GAE_SERVICE") (env !! "CURRENT_MODULE_ID")).

Definition get_current_version_name (env : gmap string string) : result (option string) :=
  let result := env !! "GAE_VERSION" in
  if Py.truthy result then Ok result
  else
    match getitem env "CURRENT_VERSION_ID" with
    | Raise e => Raise e
    | Ok current =>
        match index (Py.split "." None current) 0 with
        | Raise e => Raise e
        | Ok result => Ok (if String.eqb result "None" then None else Some result)
        end
    end.

Definition get_current_instance_id (env : gmap string string) : result (option string) :=
  Ok (Py.or_ (env !! "GAE_INSTANCE") (env !! "INSTANCE_ID")).

(** ** Default version *)

Definition Qlt_bool (x y : Q) : bool := negb (Qle_bool y x).

(** The [for version, allocation in allocations.items()] loop, with its
    two variables.  [break] ends it with the version at hand.  Comparing a
    version name with [retVersion] while that is still [None] is a
    [TypeError] in Python 3. *)
Fixpoint allocations_loop (items : list (string * Q)) (maxAlloc : Q)
    (retVersion : option string) : result (option string) :=
  match items with
  | [] => Ok retVersion
  | (version, allocation) :: items' =>
      if Qeq_bool allocation 1 then Ok (Some version)
      else if Qlt_bool maxAlloc allocation then
        allocations_loop items' allocation (Some version)
      else if Qeq_bool allocation maxAlloc then
        match retVersion with
        | None =>
            Raise (TypeError "'<' not supported between instances of 'str' and 'NoneType'")
        | Some current =>
            if String.ltb version current
            then allocations_loop items' maxAlloc (Some version)
            else allocations_loop items' maxAlloc retVersion
        end
      else allocations_loop items' maxAlloc retVersion
  end.

(** [response.get('split', {}).get('allocations')]. *)
Definition response_allocations (r : response) : option (list (string * Q)) :=
  match split r with
  | None => None
  | Some s => allocations s
  end.

(** [if not module: module = os.environ.get('GAE_SERVICE', 'default')]. *)
Definition module_or_service (env : gmap string string) (module : option string) : string :=
  match module with
  | Some (String c m) => String c m
  | Some EmptyString | None => default "default" (env !! "GAE_SERVICE")
  end.

Definition get_default_version (module : option string) : M string :=
  module <- lift (fun env => Ok (module_or_service env module)) ;;
  project <- lift _get_project_id ;;
  discovery_build ;;
  response <- except_HttpError (execute (ServicesGet project module))
    (fun status =>
       if (status =? 404)%Z
       then raise (InvalidModuleError (Msg ("Module '" ++ module ++ "' not found.")))
       else _raise_error status) ;;
  retVersion <-
    match response_allocations response with
    | Some (item :: items) =>
        lift (fun _ => allocations_loop (item :: items) (-1) None)
    | Some [] | None => ret None
    end ;;
  match retVersion with
  | None =>
      raise (InvalidVersionError
               (Msg ("Could not determine default version for module '" ++ module ++ "'.")))
  | Some v => ret v
  end.

(** ** Number of instances *)

(** [if x is None: x = f()] for the [module] and [version] defaults. *)
Definition default_to (x : option string)
    (f : gmap string string -> result (option string))
    (env : gmap string string) : result (option string) :=
  match x with
  | Some _ => Ok x
  | None => f env
  end.

Definition get_num_instances (module version : option string) : M (option Z) :=
  module <- lift (default_to module get_current_module_name) ;;
  version <- lift (default_to version get_current_version_name) ;;
  project_id <- lift _get_project_id ;;
  discovery_build ;;
  response <- except_HttpError (execute (VersionsGet project_id module version))
    _raise_error ;;
  match manualScaling response with
  | Some ms => ret (instances ms)
  | None => ret (Some 0%Z)
  end.

(** ** Mutating calls *)

Definition _admin_api_version_patch (project_id : string) (module version : option string)
    (body : patch_body) (update_mask : string) : M unit :=
  discovery_build ;;
  _ <- execute (VersionsPatch project_id module version update_mask body) ;;
  ret tt.

Definition run_request (t : target) : M unit :=
  except_HttpError
    (_admin_api_version_patch (t_project_id t) (t_module t) (t_version t)
       (t_body t) (t_update_mask t))
    _raise_error.

(** [_ThreadedRpc._run_target]: the thread's body; what it leaves in
    [self.exception]. *)
Definition _run_target (t : target) : M (option exn) :=
  fun c w =>
    match run_request t c w with
    | (Ok _, w') => (Ok None, w')
    | (Raise e, w') => (Ok (Some e), w')
    end.

(** The thread's writes to its object: [self.exception = e] and
    [self.done.set()], once the body has run. *)
Definition set_rpc (id : nat) (r : _ThreadedRpc) : M unit :=
  fun _ w => (Ok tt, {| trace := trace w; rpcs := <[id := r]> (rpcs w) |}).

Definition finish (id : nat) (t : target) : M unit :=
  e <- _run_target t ;;
  set_rpc id {| thread := None; exception := e; done := true |}.

(** [_ThreadedRpc(target)]: a new object with [exception = None] and
    [done] unset, whose thread is started. *)
Definition alloc_rpc (r : _ThreadedRpc) : M nat :=
  fun _ w => (Ok (length (rpcs w)), {| trace := trace w; rpcs := rpcs w ++ [r] |}).

Definition scheduled_at_once : M bool := fun c w => (Ok (eager c), w).

Definition new_ThreadedRpc (t : target) : M nat :=
  self <- alloc_rpc {| thread := Some t; exception := None; done := false |} ;;
  log (ThreadStart self) ;;
  at_once <- scheduled_at_once ;;
  (if at_once then finish self t else ret tt) ;;
  ret self.

(** Reading the object behind a handle; handles come from
    [new_ThreadedRpc] only. *)
Definition get_rpc (id : nat) : M _ThreadedRpc :=
  fun _ w =>
    match rpcs w !! id with
    | Some r => (Ok r, w)
    | None => (Raise (AttributeError "no such object"), w)
    end.

(** [wait]: returns once the thread has set [done]. *)
Definition wait (id : nat) : M unit :=
  r <- get_rpc id ;;
  match thread r with
  | Some t => finish id t
  | None => ret tt
  end.

Definition check_success (id : nat) : M unit :=
  r <- get_rpc id ;;
  match exception r with
  | Some e => raise e
  | None => ret tt
  end.

Definition get_result (id : nat) : M unit :=
  wait id ;;
  check_success id ;;
  ret tt.

Definition set_num_instances_async (instances : Py.value) (module version : option string)
    : M nat :=
  if negb (Py.isinstance_integer_types instances)
  then raise (TypeError "'instances' arg must be of type long or int.")
  else
    project_id <- lift _get_project_id ;;
    module <- lift (default_to module get_current_module_name) ;;
    version <- lift (default_to version get_current_version_name) ;;
    new_ThreadedRpc {| t_project_id := project_id; t_module := module; t_version := version;
                       t_body := ManualScalingBody instances;
                       t_update_mask := "manualScaling.instances" |}.

Definition set_num_instances (instances : Py.value) (module version : option string)
    : M unit :=
  rpc <- set_num_instances_async instances module version ;;
  get_result rpc.

Definition start_version_async (module version : option string) : M nat :=
  module <- lift (default_to module get_current_module_name) ;;
  version <- lift (default_to version get_current_version_name) ;;
  project_id <- lift _get_project_id ;;
  new_ThreadedRpc {| t_project_id := project_id; t_module := module; t_version := version;
                     t_body := ServingStatusBody "SERVING";
                     t_update_mask := "servingStatus" |}.

Definition start_version (module version : option string) : M unit :=
  rpc <- start_version_async module version ;;
  get_result rpc.

Definition stop_version_async (module version : option string) : M nat :=
  module <- lift (default_to module get_current_module_name) ;;
  version <- lift (default_to version get_current_version_name) ;;
  project_id <- lift _get_project_id ;;
  new_ThreadedRpc {| t_project_id := project_id; t_module := module; t_version := version;
                     t_body := ServingStatusBody "STOPPED";
                     t_update_mask := "servingStatus" |}.

Definition stop_version (module version : option string) : M unit :=
  rpc <- stop_version_async module version ;;
  get_result rpc.

(** ** Hostnames *)

(** [".".join(hostname_parts)] raises [TypeError] on an item that is not a
    [str]; the items here are strings or [None]. *)
Fixpoint all_str (parts : list (option string)) : result (list string) :=
  match parts with
  | [] => Ok []
  | Some p :: ps =>
      match all_str ps with
      | Ok ss => Ok (p :: ss)
      | Raise e => Raise e
      end
  | None :: _ => Raise (TypeError "sequence item: expected str instance, NoneType found")
  end.

Definition _construct_hostname (instance version module default_hostname : option string)
    : result string :=
  let hostname_parts := [] in
  let hostname_parts :=
    if Py.truthy instance then hostname_parts ++ [instance] else hostname_parts in
  let hostname_parts := hostname_parts ++ [version] in
  let hostname_parts := hostname_parts ++ [module] in
  let hostname_parts := hostname_parts ++ [default_hostname] in
  match all_str hostname_parts with
  | Ok parts => Ok (Py.join "." parts)
  | Raise e => Raise e
  end.

Definition get_hostname (module version instance : option string) : M string :=
  module <- lift (default_to module get_current_module_name) ;;
  version <- lift (default_to version get_current_version_name) ;;
  project <- lift _get_project_id ;;
  discovery_build ;;
  response <- execute (AppsGet project) ;;
  lift (fun _ => _construct_hostname instance version module (defaultHostname response)).

(** ** Vocabulary of the properties *)

(** Weights: an entry with weight 1.0; an entry above the loop's initial
    [maxAlloc = -1] (every traffic-split weight, which lies in [0,1], is). *)
Definition weight_eq_one (it : string * Q) : Prop := (snd it == 1)%Q.
Definition above_initial (it : string * Q) : Prop := (-1 < snd it)%Q.

(** [best_of seen m r]: among the entries [seen], [m] is the greatest
    weight and [r] the least name of an entry that has it. *)
Definition best_of (seen : list (string * Q)) (m : Q) (r : string) : Prop :=
  (exists a, In (r, a) seen /\ (a == m)%Q) /\
  (forall v' a', In (v', a') seen ->
     (a' <= m)%Q /\ ((a' == m)%Q -> String.leb r v' = true)).

(** The service-get request of [get_default_version module] is answered
    with [r]. *)
Definition service_get_returns (c : ctx) (module : option string) (r : response) : Prop :=
  exists project,
    _get_project_id (environ c) = Ok project /\
    api c (ServicesGet project (module_or_service (environ c) module)) = Returned r.

(** The three mutating operations, and the operations that translate HTTP
    failures. *)
Inductive mutation :=
| SetNumInstances (instances : Py.value)
| StartVersion
| StopVersion.

Definition async_form (op : mutation) (module version : option string) : M nat :=
  match op with
  | SetNumInstances instances => set_num_instances_async instances module version
  | StartVersion => start_version_async module version
  | StopVersion => stop_version_async module version
  end.

Definition sync_form (op : mutation) (module version : option string) : M unit :=
  match op with
  | SetNumInstances instances => set_num_instances instances module version
  | StartVersion => start_version module version
  | StopVersion => stop_version module version
  end.

(** The synchronous form in the specification's words: invoke the
    asynchronous form, then immediately wait for its completion and unwrap
    its result (re-raise the captured failure, otherwise no value). *)
Definition invoke_then_await (async : M nat) : M unit :=
  handle <- async ;;
  wait handle ;;
  check_success handle.

Inductive operation :=
| GetDefaultVersion (module : option string)
| GetNumInstances (module version : option string)
| Mutate (op : mutation) (module version : option string).

Definition run_operation (op : operation) : M unit :=
  match op with
  | GetDefaultVersion module => _ <- get_default_version module ;; ret tt
  | GetNumInstances module version => _ <- get_num_instances module version ;; ret tt
  | Mutate op module version => sync_form op module version
  end.

Definition patch_of (op : mutation) : result (patch_body * string) :=
  match op with
  | SetNumInstances instances =>
      if Py.isinstance_integer_types instances
      then Ok (ManualScalingBody instances, "manualScaling.instances")
      else Raise (TypeError "'instances' arg must be of type long or int.")
  | StartVersion => Ok (ServingStatusBody "SERVING", "servingStatus")
  | StopVersion => Ok (ServingStatusBody "STOPPED", "servingStatus")
  end.

(** The request an operation sends, when its arguments and the environment
    let it get that far. *)
Definition request_of (env : gmap string string) (op : operation) : result request :=
  match op with
  | GetDefaultVersion module =>
      match _get_project_id env with
      | Ok project => Ok (ServicesGet project (module_or_service env module))
      | Raise e => Raise e
      end
  | GetNumInstances module version =>
      match default_to module get_current_module_name env,
            default_to version get_current_version_name env,
            _get_project_id env with
      | Ok m, Ok v, Ok project => Ok (VersionsGet project m v)
      | Raise e, _, _ | _, Raise e, _ | _, _, Raise e => Raise e
      end
  | Mutate op module version =>
      match patch_of op,
            default_to module get_current_module_name env,
            default_to version get_current_version_name env,
            _get_project_id env with
      | Ok (body, mask), Ok m, Ok v, Ok project => Ok (VersionsPatch project m v mask body)
      | Raise e, _, _, _ | _, Raise e, _, _ | _, _, Raise e, _ | _, _, _, Raise e => Raise e
      end
  end.


Definition is_patch (op : operation) : Prop :=
  match op with
  | Mutate _ _ _ => True
  | GetDefaultVersion _ | GetNumInstances _ _ => False
  end.

(** The range of a traffic-split weight, and two sample allocations. *)
Definition traffic_weight (it : string * Q) : Prop := (0 <= snd it <= 1)%Q.
Definition all_to_v2 : list (string * Q) := [("v1", 0%Q); ("v2", 1%Q)].
Definition tied_halves : list (string * Q) := [("v2-beta", (1#2)%Q); ("v1-stable", (1#2)%Q)].

Definition no_default_version (module : string) : exn :=
  InvalidVersionError
    (Msg ("Could not determine default version for module '" ++ module ++ "'.")).

(** The request a thread body sends, what the body ends with, and what
    [_run_target] keeps of it. *)
Definition target_request (t : target) : request :=
  VersionsPatch (t_project_id t) (t_module t) (t_version t) (t_update_mask t) (t_body t).

Definition patch_result (answer : outcome) : result unit :=
  match answer with
  | Returned _ => Ok tt
  | HttpFailure status => Raise (_raise_error_exn status)
  | OtherFailure descr => Raise (ClientException descr)
  end.

Definition captured (r : result unit) : option exn :=
  match r with
  | Ok _ => None
  | Raise e => Some e
  end.

(** What [get_num_instances] makes of the answer to its request. *)
Definition version_result (answer : outcome) : result (option Z) :=
  match answer with
  | Returned r =>
      match manualScaling r with
      | Some ms => Ok (instances ms)
      | None => Ok (Some 0%Z)
      end
  | HttpFailure status => Raise (_raise_error_exn status)
  | OtherFailure descr => Raise (ClientException descr)
  end.

(** ** Sample processes (the environment of the module's unit tests) *)

Definition test_environ : gmap string string :=
  list_to_map
    [("GAE_APPLICATION", "s~project"); ("GOOGLE_CLOUD_PROJECT", "project");
     ("GAE_SERVICE", "default"); ("GAE_VERSION", "v1");
     ("CURRENT_MODULE_ID", "default"); ("CURRENT_VERSION_ID", "v1.123")].

Definition secondary_only (current_version_id : string) : gmap string string :=
  {[ "CURRENT_VERSION_ID" := current_version_id ]}.

Definition test_ctx (answer : outcome) (sched : bool) : ctx :=
  {| environ := test_environ; api := fun _ => answer; eager := sched |}.

Definition initial_world : world := {| trace := []; rpcs := [] |}.

Definition service_response (items : list (string * Q)) : response :=
  {| split := Some {| allocations := Some items |};
     manualScaling := None; defaultHostname := None |}.

(** ** Listing operations *)

(** [get_modules] and [get_versions] send a list request and read the ids
    out of the answer.  Their requests and answers have types of their own;
    the functions are given the oracle that answers them.  Building the
    client with [discovery.build] is taken to succeed, as elsewhere;
    [get_modules] first asks [google.auth.default()] for credentials. *)
Inductive list_request :=
| ServicesList (appsId : string)
| VersionsList (appsId : string) (servicesId : string) (view : string).

(** A listed service or version, by its ['id'] key. *)
Record resource := { resource_id : option string }.

Record list_response := {
  services : option (list resource);
  versions : option (list resource)
}.

Inductive list_outcome :=
| Listed (r : list_response)
| ListHttpFailure (status : Z)
| ListOtherFailure (descr : string).

(** [[x['id'] for x in items]]. *)
Fixpoint ids (items : list resource) : result (list string) :=
  match items with
  | [] => Ok []
  | x :: items' =>
      match resource_id x with
      | None => Raise (KeyError "id")
      | Some i =>
          match ids items' with
          | Ok l => Ok (i :: l)
          | Raise e => Raise e
          end
      end
  end.

(** What [google.auth.default()] does: return the pair
    [(credentials, project_id)], or raise. *)
Inductive auth_outcome :=
| AuthReturned
| AuthRaised (descr : string).

(** [credentials.authorize(http_client)], where [credentials] is bound to
    the whole pair that [google.auth.default()] returned: a tuple has no
    attribute [authorize]. *)
Definition authorize_pair : result unit :=
  Raise (AttributeError "'tuple' object has no attribute 'authorize'").

Definition get_modules (auth_default : auth_outcome)
    (list_api : list_request -> list_outcome)
    (env : gmap string string) : result (list string) :=
  match _get_project_id env with
  | Raise e => Raise e
  | Ok project_id =>
      match auth_default with
      | AuthRaised descr => Raise (ClientException descr)
      | AuthReturned =>
          match authorize_pair with
          | Raise e => Raise e
          | Ok _ =>
              match list_api (ServicesList project_id) with
              | ListHttpFailure status =>
                  if (status =? 404)%Z
                  then Raise (Error (Msg ("Project '" ++ project_id ++ "' not found.")))
                  else Raise (_raise_error_exn status)
              | ListOtherFailure descr => Raise (ClientException descr)
              | Listed response => ids (default [] (services response))
              end
          end
      end
  end.

Definition get_versions (list_api : list_request -> list_outcome)
    (module : option string) (env : gmap string string) : result (list string) :=
  let module := module_or_service env module in
  match _get_project_id env with
  | Raise e => Raise e
  | Ok project_id =>
      match list_api (VersionsList project_id module "FULL") with
      | ListHttpFailure status =>
          if (status =? 404)%Z
          then Raise (InvalidModuleError (Msg ("Module '" ++ module ++ "' not found.")))
          else Raise (_raise_error_exn status)
      | ListOtherFailure descr => Raise (ClientException descr)
      | Listed response => ids (default [] (versions response))
      end
  end.

(** ** Further vocabulary *)

(** [ch in s]. *)
Fixpoint contains (ch : ascii) (s : string) : bool :=
  match s with
  | EmptyString => false
  | String c rest => Ascii.eqb c ch || contains ch rest
  end.

(** The requests executed along a trace, in order. *)
Fixpoint executed (tr : list event) : list request :=
  match tr with
  | [] => []
  | Execute r :: tr' => r :: executed tr'
  | _ :: tr' => executed tr'
  end.

(** The exceptions Python raises on its own in this module: a wrong type,
    a missing key or attribute, an index out of range. *)
Definition local_error (e : exn) : Prop :=
  match e with
  | TypeError _ | KeyError _ | AttributeError _ | IndexError _ => True
  | _ => False
  end.

(** Neither version variable gives a version name. *)
Definition version_unset (env : gmap string string) : Prop :=
  Py.truthy (env !! "GAE_VERSION") = false /\ env !! "CURRENT_VERSION_ID" = None.

(** Neither project variable gives a project id. *)
Definition project_unset (env : gmap string string) : Prop :=
  Py.or_ (env !! "GAE_PROJECT") (env !! "GOOGLE_CLOUD_PROJECT") = None.

Definition listed_versions (names : list string) : list_outcome :=
  Listed {| services := None;
            versions := Some (map (fun n => {| resource_id := Some n |}) names) |}.

(** A handle whose thread has not run yet, and one whose thread has. *)
Definition pending (t : target) : _ThreadedRpc :=
  {| thread := Some t; exception := None; done := false |}.

Definition finished (c : ctx) (t : target) : _ThreadedRpc :=
  {| thread := None;
     exception := captured (patch_result (api c (target_request t)));
     done := true |}.

(** What [check_success] makes of a handle's [exception]. *)
Definition rethrown (e : option exn) : result unit :=
  match e with
  | Some e => Raise e
  | None => Ok tt
  end.

(** The target an asynchronous form hands to its thread. *)
Definition target_of (project_id : string) (module version : option string)
    (body : patch_body) (mask : string) : target :=
  {| t_project_id := project_id; t_module := module; t_version := version;
     t_body := body; t_update_mask := mask |}.

(** The exceptions the module declares. *)
Definition module_error (e : exn) : Prop :=
  match e with
  | Error _ | InvalidModuleError _ | InvalidVersionError _ | InvalidInstancesError _
  | UnexpectedStateError _ | TransientError _ => True
  | _ => False
  end.

(** The threads started along a trace, by the handle they belong to. *)
Fixpoint started (tr : list event) : list nat :=
  match tr with
  | [] => []
  | ThreadStart id :: tr' => id :: started tr'
  | _ :: tr' => started tr'
  end.

(** A computation that starts no thread and leaves the handles as they
    are. *)
Definition thread_free {A} (m : M A) : Prop :=
  forall c w,
    started (trace (snd (m c w))) = started (trace w)
    /\ rpcs (snd (m c w)) = rpcs w.

(** What [get_hostname] makes of the answer to its request. *)
Definition hostname_result (instance version module : option string) (answer : outcome)
    : result string :=
  match answer with
  | Returned r => _construct_hostname instance version module (defaultHostname r)
  | HttpFailure status => Raise (HttpError status)
  | OtherFailure descr => Raise (ClientException descr)
  end.

(** The labels of a hostname: the instance when it is truthy, then the rest. *)
Definition hostname_labels (instance : option string) (version module default_hostname : string)
    : list string :=
  match instance with
  | Some (String ch i) => [String ch i; version; module; default_hostname]
  | Some EmptyString | None => [version; module; default_hostname]
  end.

(** * Properties *)

(** ** Rationals and strings: the comparisons the loop uses *)

Lemma Qlt_bool_iff (x y : Q) : Qlt_bool x y = true <-> (x < y)%Q.
Proof.
  unfold Qlt_bool. rewrite negb_true_iff, <- not_true_iff_false, Qle_bool_iff.
  split; [apply Qnot_le_lt | apply Qlt_not_le].
Qed.

Lemma Qlt_bool_false (x y : Q) : Qlt_bool x y = false <-> (y <= x)%Q.
Proof.
  unfold Qlt_bool. rewrite negb_false_iff. apply Qle_bool_iff.
Qed.

Lemma Qeq_bool_false (x y : Q) : Qeq_bool x y = false <-> ~ (x == y)%Q.
Proof.
  rewrite <- not_true_iff_false, Qeq_bool_iff. reflexivity.
Qed.

Module StrOrder.

Lemma ltb_lt (a b : string) : String.ltb a b = true <-> String.compare a b = Lt.
Proof. unfold String.ltb. destruct (String.compare a b); split; congruence. Qed.

Lemma leb_refl (a : string) : String.leb a a = true.
Proof.
  unfold String.leb.
  destruct (String.compare a a) eqn:E; [reflexivity | reflexivity |].
  pose proof (String.compare_antisym a a) as H. rewrite E in H. discriminate.
Qed.

Lemma ltb_false_leb (a b : string) : String.ltb a b = false -> String.leb b a = true.
Proof.
  unfold String.ltb, String.leb. rewrite (String.compare_antisym a b).
  destruct (String.compare b a); simpl; congruence.
Qed.

Lemma ltb_leb (a b : string) : String.ltb a b = true -> String.leb a b = true.
Proof. unfold String.ltb, String.leb. destruct (String.compare a b); congruence. Qed.

Lemma lt_leb_trans (a b c : string) :
  String.ltb a b = true -> String.leb b c = true -> String.leb a c = true.
Proof.
  rewrite ltb_lt. unfold String.leb. intros Hab Hbc.
  destruct (String.compare b c) eqn:E; [| |discriminate].
  - apply String.compare_eq_iff in E. subst c. rewrite Hab. reflexivity.
  - assert (H : String.compare a c = Lt).
    { exact (StrictOrder_Transitive (R := OrdersEx.String_as_OT.lt) a b c Hab E). }
    rewrite H. reflexivity.
Qed.

Lemma leb_antisym_eq (a b : string) :
  String.leb a b = true -> String.leb b a = true -> a = b.
Proof. apply String.leb_antisym. Qed.

End StrOrder.

(** ** The allocations loop *)


(** One entry with weight 1.0 ends the loop with such an entry, whatever
    was seen before it. *)
Lemma allocations_loop_one (items : list (string * Q)) :
  Forall above_initial items ->
  Exists weight_eq_one items ->
  forall maxAlloc retVersion,
    (retVersion = None -> (maxAlloc == -1)%Q) ->
    exists v a, allocations_loop items maxAlloc retVersion = Ok (Some v)
                /\ In (v, a) items /\ (a == 1)%Q.
Proof.
  induction items as [|[version allocation] items IH]; intros Habove Hone m r Hinv.
  - inversion Hone.
  - simpl. apply Forall_cons in Habove as [Hv Habove]. unfold above_initial in Hv; simpl in Hv.
    destruct (Qeq_bool allocation 1) eqn:E1.
    + exists version, allocation. apply Qeq_bool_iff in E1. auto.
    + assert (Hrest : Exists weight_eq_one items).
      { apply Exists_cons in Hone as [H|H]; [|exact H].
        unfold weight_eq_one in H; simpl in H.
        apply Qeq_bool_false in E1. contradiction. }
      assert (Hnext : forall m' r', (r' = None -> (m' == -1)%Q) ->
                exists v a, allocations_loop items m' r' = Ok (Some v)
                            /\ In (v, a) (((version, allocation)) :: items) /\ (a == 1)%Q).
      { intros m' r' H'. destruct (IH Habove Hrest m' r' H') as (v & a & ? & ? & ?).
        exists v, a. simpl. auto. }
      destruct (Qlt_bool m allocation) eqn:E2; [apply Hnext; discriminate|].
      destruct (Qeq_bool allocation m) eqn:E3; [|apply Hnext; exact Hinv].
      destruct r as [current|].
      * destruct (String.ltb version current); apply Hnext; discriminate.
      * apply Qeq_bool_iff in E3. specialize (Hinv eq_refl). lra.
Qed.

Lemma best_of_Proper seen m m' r : (m == m')%Q -> best_of seen m r -> best_of seen m' r.
Proof.
  intros Hm [(a & Hin & Ha) Hall]. split.
  - exists a. split; [exact Hin | lra].
  - intros v' a' H. destruct (Hall v' a' H) as [Hle Htie]. split; [lra|].
    intros Hq. apply Htie. lra.
Qed.

Lemma allocations_loop_best (items : list (string * Q)) :
  Forall (fun it => ~ weight_eq_one it) items ->
  forall seen maxAlloc current,
    best_of seen maxAlloc current ->
    exists m r, allocations_loop items maxAlloc (Some current) = Ok (Some r)
                /\ best_of (seen ++ items) m r.
Proof.
  induction items as [|[version allocation] items IH]; intros Hno seen m cur Hbest.
  - exists m, cur. simpl. rewrite app_nil_r. auto.
  - apply Forall_cons in Hno as [Hv Hno]. unfold weight_eq_one in Hv; simpl in Hv.
    simpl. apply Qeq_bool_false in Hv. rewrite Hv.
    replace (seen ++ (version, allocation) :: items)
      with ((seen ++ [(version, allocation)]) ++ items)
      by (rewrite <- app_assoc; reflexivity).
    destruct Hbest as [(a0 & Hin0 & Ha0) Hall].
    destruct (Qlt_bool m allocation) eqn:E2.
    { apply Qlt_bool_iff in E2. apply IH; [exact Hno|]. split.
      - exists allocation. split; [apply in_or_app; right; left; reflexivity | lra].
      - intros v' a' H. apply in_app_or in H as [H|[H|[]]].
        + destruct (Hall v' a' H) as [Hle _]. split; [lra|]. intros Hq. exfalso. lra.
        + inversion H; subst. split; [lra|]. intros _. apply StrOrder.leb_refl. }
    apply Qlt_bool_false in E2.
    destruct (Qeq_bool allocation m) eqn:E3.
    { apply Qeq_bool_iff in E3.
      destruct (String.ltb version cur) eqn:E4; apply IH; try exact Hno; split.
      - exists allocation. split; [apply in_or_app; right; left; reflexivity | lra].
      - intros v' a' H. apply in_app_or in H as [H|[H|[]]].
        + destruct (Hall v' a' H) as [Hle Htie]. split; [exact Hle|].
          intros Hq. eapply StrOrder.lt_leb_trans; [exact E4 | apply Htie; exact Hq].
        + inversion H; subst. split; [lra|]. intros _. apply StrOrder.leb_refl.
      - exists a0. split; [apply in_or_app; left; exact Hin0 | exact Ha0].
      - intros v' a' H. apply in_app_or in H as [H|[H|[]]].
        + apply Hall; exact H.
        + inversion H; subst. split; [lra|]. intros _.
          apply StrOrder.ltb_false_leb. exact E4. }
    apply Qeq_bool_false in E3.
    apply IH; [exact Hno|]. split.
    { exists a0. split; [apply in_or_app; left; exact Hin0 | exact Ha0]. }
    intros v' a' H. apply in_app_or in H as [H|[H|[]]].
    + apply Hall; exact H.
    + inversion H; subst. split; [lra|]. intros Hq. contradiction.
Qed.

(** From the loop's initial state. *)
Lemma allocations_loop_max (items : list (string * Q)) :
  items <> [] ->
  Forall above_initial items ->
  Forall (fun it => ~ weight_eq_one it) items ->
  exists m r, allocations_loop items (-1) None = Ok (Some r) /\ best_of items m r.
Proof.
  destruct items as [|[version allocation] items]; [congruence|].
  intros _ Habove Hno.
  apply Forall_cons in Habove as [Hv _]. unfold above_initial in Hv; simpl in Hv.
  apply Forall_cons in Hno as [Hn Hno]. unfold weight_eq_one in Hn; simpl in Hn.
  simpl. apply Qeq_bool_false in Hn. rewrite Hn.
  apply Qlt_bool_iff in Hv. rewrite Hv.
  apply (allocations_loop_best items Hno [(version, allocation)] allocation version).
  split.
  - exists allocation. split; [left; reflexivity | reflexivity].
  - intros v' a' [H|[]]. inversion H; subst. split; [lra|].
    intros _. apply StrOrder.leb_refl.
Qed.

(** ** get_default_version *)

Ltac run_monad :=
  unfold bind, lift, ret, raise, log, discovery_build, execute, except_HttpError,
    _raise_error; cbv beta iota.

(** The run of [get_default_version] once the service-get request is
    answered: two calls leave the process, then the selection decides. *)
Lemma get_default_version_answered (c : ctx) (w : world) (module : option string)
    (project : string) (r : response) :
  _get_project_id (environ c) = Ok project ->
  api c (ServicesGet project (module_or_service (environ c) module)) = Returned r ->
  get_default_version module c w =
    (match response_allocations r with
     | Some (item :: items) =>
         match allocations_loop (item :: items) (-1) None with
         | Ok (Some v) => Ok v
         | Ok None => Raise (no_default_version (module_or_service (environ c) module))
         | Raise e => Raise e
         end
     | Some [] | None => Raise (no_default_version (module_or_service (environ c) module))
     end,
     {| trace := (trace w ++ [DiscoveryBuild])
                   ++ [Execute (ServicesGet project (module_or_service (environ c) module))];
        rpcs := rpcs w |}).
Proof.
  intros Hp Ha. unfold get_default_version. run_monad. rewrite Hp. cbv beta iota.
  cbn [trace rpcs]. rewrite Ha.
  destruct (response_allocations r) as [[|item items]|]; try reflexivity.
  destruct (allocations_loop (item :: items) (-1) None) as [[v|]|e]; reflexivity.
Qed.

Lemma traffic_weight_above (items : list (string * Q)) :
  Forall traffic_weight items -> Forall above_initial items.
Proof.
  intros H. eapply Forall_impl; [exact H|].
  intros [v a]. unfold traffic_weight, above_initial. simpl. lra.
Qed.

(** C1: when the allocations answered for a service contain an entry of
    weight exactly 1.0, [get_default_version] returns the name of an entry
    whose weight is 1.0, whatever the other weights (in the range [0,1] of
    a traffic split) and whatever the iteration order ([items] is any list). *)
Theorem get_default_version_weight_one (c : ctx) (w : world) (module : option string)
    (r : response) (items : list (string * Q)) :
  service_get_returns c module r ->
  response_allocations r = Some items ->
  Forall traffic_weight items ->
  Exists weight_eq_one items ->
  exists v a, fst (get_default_version module c w) = Ok v
              /\ In (v, a) items /\ (a == 1)%Q.
Proof.
  intros (project & Hp & Ha) Hr Hrange Hone.
  rewrite (get_default_version_answered c w module project r Hp Ha), Hr.
  destruct (allocations_loop_one items (traffic_weight_above items Hrange) Hone (-1) None)
    as (v & a & Hloop & Hin & Ha1); [reflexivity|].
  exists v, a. destruct items as [|item items]; [inversion Hone|].
  rewrite Hloop. simpl. auto.
Qed.

Lemma get_default_version_weight_one_witness :
  exists v a,
    fst (get_default_version None
           (test_ctx (Returned (service_response all_to_v2)) false)
           initial_world) = Ok v
    /\ In (v, a) all_to_v2 /\ (a == 1)%Q.
Proof.
  apply (get_default_version_weight_one _ _ _
           (service_response all_to_v2)).
  - exists "project". split; vm_compute; reflexivity.
  - reflexivity.
  - repeat constructor; unfold Qle; simpl; lia.
  - right. left. vm_compute. reflexivity.
Defined.

(** C2: when the answered allocations are not empty and hold no weight
    equal to 1.0, [get_default_version] returns the name of an entry of
    greatest weight, and among the entries that share that weight the
    lexicographically least name. *)
Theorem get_default_version_max (c : ctx) (w : world) (module : option string)
    (r : response) (items : list (string * Q)) :
  service_get_returns c module r ->
  response_allocations r = Some items ->
  items <> [] ->
  Forall traffic_weight items ->
  Forall (fun it => ~ weight_eq_one it) items ->
  exists v a, fst (get_default_version module c w) = Ok v
              /\ In (v, a) items
              /\ forall v' a', In (v', a') items ->
                   (a' <= a)%Q /\ ((a' == a)%Q -> String.leb v v' = true).
Proof.
  intros (project & Hp & Ha) Hr Hne Hrange Hno.
  rewrite (get_default_version_answered c w module project r Hp Ha), Hr.
  destruct (allocations_loop_max items Hne (traffic_weight_above items Hrange) Hno)
    as (m & v & Hloop & (a & Hin & Ham) & Hall).
  exists v, a. destruct items as [|item items]; [congruence|].
  rewrite Hloop. simpl. split; [reflexivity|]. split; [exact Hin|].
  intros v' a' H. destruct (Hall v' a' H) as [Hle Htie]. split; [lra|].
  intros Hq. apply Htie. lra.
Qed.

Lemma get_default_version_max_witness :
  exists v a,
    fst (get_default_version None
           (test_ctx (Returned (service_response tied_halves)) false)
           initial_world) = Ok v
    /\ In (v, a) tied_halves
    /\ forall v' a', In (v', a') tied_halves ->
         (a' <= a)%Q /\ ((a' == a)%Q -> String.leb v v' = true).
Proof.
  apply (get_default_version_max _ _ _
           (service_response tied_halves)).
  - exists "project". split; vm_compute; reflexivity.
  - reflexivity.
  - discriminate.
  - repeat constructor; unfold Qle; simpl; lia.
  - repeat constructor; unfold weight_eq_one, Qeq; simpl; lia.
Defined.

Example get_default_version_lexicographical :
  fst (get_default_version None
         (test_ctx (Returned (service_response tied_halves)) false)
         initial_world) = Ok "v1-stable".
Proof. vm_compute. reflexivity. Qed.

(** C3: when the answered service has no [split], no [allocations] in it,
    or an empty allocations map, [get_default_version] raises
    [InvalidVersionError] ("Could not determine default version ...") and
    returns no version name. *)
Theorem get_default_version_no_allocations (c : ctx) (w : world) (module : option string)
    (r : response) :
  service_get_returns c module r ->
  response_allocations r = None \/ response_allocations r = Some [] ->
  fst (get_default_version module c w)
  = Raise (InvalidVersionError
             (Msg ("Could not determine default version for module '"
                   ++ module_or_service (environ c) module ++ "'."))).
Proof.
  intros (project & Hp & Ha) Hr.
  rewrite (get_default_version_answered c w module project r Hp Ha).
  destruct Hr as [Hr|Hr]; rewrite Hr; reflexivity.
Qed.

Lemma get_default_version_no_allocations_witness :
  fst (get_default_version None (test_ctx (Returned empty_response) false) initial_world)
  = Raise (InvalidVersionError
             (Msg "Could not determine default version for module 'default'.")).
Proof.
  apply (get_default_version_no_allocations (test_ctx (Returned empty_response) false)
           initial_world None empty_response).
  - exists "project". split; vm_compute; reflexivity.
  - left. reflexivity.
Defined.

(** ** Iteration order *)

Lemma best_of_unique (l l' : list (string * Q)) (m m' : Q) (r r' : string) :
  (forall x, In x l -> In x l') ->
  (forall x, In x l' -> In x l) ->
  best_of l m r -> best_of l' m' r' -> r = r'.
Proof.
  intros Hto Hfrom [(a & Hin & Ha) Hall] [(a' & Hin' & Ha') Hall'].
  destruct (Hall' r a (Hto _ Hin)) as [Hle Htie].
  destruct (Hall r' a' (Hfrom _ Hin')) as [Hle' Htie'].
  apply StrOrder.leb_antisym_eq; [apply Htie' | apply Htie]; lra.
Qed.

(** Without a weight 1.0 the selected version does not depend on the
    order in which the dict is iterated. *)
Lemma allocations_loop_order (items items' : list (string * Q)) :
  Permutation items items' ->
  items <> [] ->
  Forall above_initial items ->
  Forall (fun it => ~ weight_eq_one it) items ->
  allocations_loop items (-1) None = allocations_loop items' (-1) None.
Proof.
  intros Hperm Hne Habove Hno.
  assert (Hne' : items' <> []).
  { intros ->. apply Permutation_nil_r in Hperm. contradiction. }
  destruct (allocations_loop_max items Hne Habove Hno) as (m & r & Hloop & Hbest).
  destruct (allocations_loop_max items' Hne'
              (Permutation_Forall Hperm Habove) (Permutation_Forall Hperm Hno))
    as (m' & r' & Hloop' & Hbest').
  rewrite Hloop, Hloop'. do 2 f_equal.
  apply (best_of_unique items items' m m'); try assumption.
  - intros x. apply Permutation_in. exact Hperm.
  - intros x. apply Permutation_in. symmetry. exact Hperm.
Qed.

(** With several weights 1.0 it does: the first one met wins. *)
Example allocations_loop_two_ones :
  allocations_loop [("a", 1%Q); ("b", 1%Q)] (-1) None = Ok (Some "a")
  /\ allocations_loop [("b", 1%Q); ("a", 1%Q)] (-1) None = Ok (Some "b").
Proof. split; vm_compute; reflexivity. Qed.

(** ** Identity resolution *)

Lemma split_nonempty (sep : ascii) (maxsplit : option nat) (s : string) :
  Py.split sep maxsplit s <> [].
Proof.
  revert maxsplit. induction s as [|ch s IH]; intros maxsplit; simpl; [discriminate|].
  destruct (Ascii.eqb ch sep).
  - destruct maxsplit as [[|k]|]; discriminate.
  - destruct (Py.split sep maxsplit s); discriminate.
Qed.

(** [s.split(sep)[0]] is the part of [s] before the first [sep]. *)
Lemma split_first (sep : ascii) (s : string) :
  index (Py.split sep None s) 0 = Ok (Py.before sep s).
Proof.
  unfold index. induction s as [|ch s IH]; simpl; [reflexivity|].
  destruct (Ascii.eqb ch sep); [reflexivity|].
  destruct (Py.split sep None s) as [|piece pieces] eqn:E; simpl in *.
  - discriminate.
  - injection IH as ->. reflexivity.
Qed.

Lemma get_current_version_name_secondary (env : gmap string string) (current : string) :
  Py.truthy (env !! "GAE_VERSION") = false ->
  env !! "CURRENT_VERSION_ID" = Some current ->
  get_current_version_name env
  = Ok (if String.eqb (Py.before "." current) "None" then None
        else Some (Py.before "." current)).
Proof.
  intros Hprimary Hsecondary. unfold get_current_version_name, getitem.
  rewrite Hprimary, Hsecondary, split_first. reflexivity.
Qed.

(** C4: with the primary variable [GAE_VERSION] absent,
    [CURRENT_VERSION_ID = "v3.456"] gives the current version ["v3"], and
    [CURRENT_VERSION_ID = "None.456"] gives [None]. *)
Theorem get_current_version_name_fallback (env : gmap string string) :
  env !! "GAE_VERSION" = None ->
  (env !! "CURRENT_VERSION_ID" = Some "v3.456" ->
   get_current_version_name env = Ok (Some "v3"))
  /\ (env !! "CURRENT_VERSION_ID" = Some "None.456" ->
      get_current_version_name env = Ok None).
Proof.
  intros Hprimary.
  split; intros Hsecondary;
    rewrite (get_current_version_name_secondary env _) with (2 := Hsecondary);
    try reflexivity; rewrite Hprimary; reflexivity.
Qed.

Lemma get_current_version_name_fallback_witness :
  get_current_version_name (secondary_only "v3.456") = Ok (Some "v3")
  /\ get_current_version_name (secondary_only "None.456") = Ok None.
Proof.
  split.
  - apply (get_current_version_name_fallback (secondary_only "v3.456")); reflexivity.
  - apply (get_current_version_name_fallback (secondary_only "None.456")); reflexivity.
Defined.

Lemma get_current_module_name_total (env : gmap string string) :
  exists v, get_current_module_name env = Ok v.
Proof. eexists. reflexivity. Qed.

Lemma get_current_instance_id_total (env : gmap string string) :
  exists v, get_current_instance_id env = Ok v.
Proof. eexists. reflexivity. Qed.

(** Exactly when the version name is not resolved. *)
Lemma get_current_version_name_raises (env : gmap string string) :
  raises (get_current_version_name env)
  <-> Py.truthy (env !! "GAE_VERSION") = false /\ env !! "CURRENT_VERSION_ID" = None.
Proof.
  unfold get_current_version_name, getitem.
  destruct (Py.truthy (env !! "GAE_VERSION")) eqn:Hprimary; simpl.
  - split; [intros [] | intros [? _]; discriminate].
  - destruct (env !! "CURRENT_VERSION_ID") as [current|] eqn:Hsecondary.
    + rewrite split_first. simpl. split; [intros [] | intros [_ ?]; discriminate].
    + simpl. split; auto.
Qed.

(** C5: identity resolution does fail: in a process with none of the
    variables set, [get_current_version_name] raises [KeyError] on its
    subscript of [os.environ], where [get_current_module_name] and
    [get_current_instance_id], which read with [os.environ.get], return
    [None]. *)
Theorem get_current_version_name_unset :
  get_current_version_name ∅ = Raise (KeyError "CURRENT_VERSION_ID")
  /\ get_current_module_name ∅ = Ok None
  /\ get_current_instance_id ∅ = Ok None.
Proof. repeat split. Qed.

(** ** Hostnames *)

(** C6: [_construct_hostname] joins instance (when truthy), version,
    module and default hostname with ['.'], and leaves the instance out
    when it is absent; the two hostnames of the specification are instances. *)
Theorem _construct_hostname_joins :
  (forall ch i v m d,
      _construct_hostname (Some (String ch i)) (Some v) (Some m) (Some d)
      = Ok (String ch i ++ "." ++ v ++ "." ++ m ++ "." ++ d)%string)
  /\ (forall v m d,
        _construct_hostname None (Some v) (Some m) (Some d)
        = Ok (v ++ "." ++ m ++ "." ++ d)%string)
  /\ _construct_hostname (Some "i") (Some "v1") (Some "default") (Some "project.appspot.com")
     = Ok "i.v1.default.project.appspot.com"
  /\ _construct_hostname None (Some "v1") (Some "default") (Some "project.appspot.com")
     = Ok "v1.default.project.appspot.com".
Proof. repeat split. Qed.

Lemma _construct_hostname_empty_instance (v m d : option string) :
  _construct_hostname (Some "") v m d = _construct_hostname None v m d.
Proof. reflexivity. Qed.

Lemma _construct_hostname_no_version (i m d : option string) :
  raises (_construct_hostname i None m d).
Proof. destruct i as [[|ch i]|]; exact I. Qed.

(** ** Mutating calls: validation, threads, the synchronous forms *)

(** C8: an [instances] argument that is not an instance of the integer
    types makes [set_num_instances_async], and so [set_num_instances],
    raise [TypeError] at once: in every process (so also where the project
    id would not resolve) the world is returned as it was, with no thread
    started, no client built and no request executed. *)
Theorem set_num_instances_type_error (instances : Py.value)
    (module version : option string) (c : ctx) (w : world) :
  Py.isinstance_integer_types instances = false ->
  set_num_instances_async instances module version c w
  = (Raise (TypeError "'instances' arg must be of type long or int."), w)
  /\ set_num_instances instances module version c w
     = (Raise (TypeError "'instances' arg must be of type long or int."), w).
Proof.
  intros Htype. unfold set_num_instances, set_num_instances_async, bind.
  rewrite Htype. split; reflexivity.
Qed.

Lemma set_num_instances_type_error_witness :
  set_num_instances_async (Py.PyStr "not-an-int") None None
    {| environ := ∅; api := fun _ => OtherFailure "unreachable"; eager := true |}
    initial_world
  = (Raise (TypeError "'instances' arg must be of type long or int."), initial_world)
  /\ set_num_instances (Py.PyStr "not-an-int") None None
       {| environ := ∅; api := fun _ => OtherFailure "unreachable"; eager := true |}
       initial_world
     = (Raise (TypeError "'instances' arg must be of type long or int."), initial_world).
Proof.
  apply (set_num_instances_type_error (Py.PyStr "not-an-int")). reflexivity.
Defined.

Lemma run_request_run (t : target) (c : ctx) (w : world) :
  run_request t c w
  = (patch_result (api c (target_request t)),
     {| trace := (trace w ++ [DiscoveryBuild]) ++ [Execute (target_request t)];
        rpcs := rpcs w |}).
Proof.
  unfold run_request, _admin_api_version_patch. run_monad. unfold target_request.
  destruct (api c _); reflexivity.
Qed.

Lemma finish_run (id : nat) (t : target) (c : ctx) (w : world) :
  finish id t c w
  = (Ok tt,
     {| trace := (trace w ++ [DiscoveryBuild]) ++ [Execute (target_request t)];
        rpcs := <[id := {| thread := None;
                           exception := captured (patch_result (api c (target_request t)));
                           done := true |}]> (rpcs w) |}).
Proof.
  unfold finish, _run_target, set_rpc, bind. rewrite run_request_run.
  destruct (patch_result _); reflexivity.
Qed.

Lemma lookup_snoc {A} (l : list A) (x : A) : (l ++ [x]) !! length l = Some x.
Proof. apply list_lookup_middle. reflexivity. Qed.

Lemma insert_snoc {A} (l : list A) (x y : A) : <[length l := y]> (l ++ [x]) = l ++ [y].
Proof.
  rewrite insert_app_r_alt by lia. rewrite Nat.sub_diag. reflexivity.
Qed.

(** Starting a thread for [t] and retrieving its result at once: under
    either scheduling the request of [t] is sent exactly once, after the
    thread start, and the failure of the body is the failure of the whole. *)
Lemma start_then_get_result (t : target) (c : ctx) (w : world) :
  (rpc <- new_ThreadedRpc t ;; get_result rpc) c w
  = (patch_result (api c (target_request t)),
     {| trace := ((trace w ++ [ThreadStart (length (rpcs w))]) ++ [DiscoveryBuild])
                   ++ [Execute (target_request t)];
        rpcs := rpcs w ++ [{| thread := None;
                              exception := captured (patch_result (api c (target_request t)));
                              done := true |}] |}).
Proof.
  unfold bind at 1. unfold new_ThreadedRpc, alloc_rpc, log, scheduled_at_once, bind, ret.
  cbn [trace rpcs]. destruct (eager c).
  - rewrite finish_run. cbn [trace rpcs]. rewrite insert_snoc.
    unfold get_result, wait, check_success, get_rpc, bind, ret, raise.
    repeat (cbn [trace rpcs thread exception]; rewrite ?lookup_snoc).
    destruct (patch_result _) as [[]|e]; reflexivity.
  - unfold get_result, wait, check_success, get_rpc, bind, ret, raise.
    cbn [trace rpcs]. rewrite lookup_snoc. cbn [thread exception].
    rewrite finish_run.
    repeat (cbn [trace rpcs thread exception]; rewrite ?insert_snoc, ?lookup_snoc).
    destruct (patch_result _) as [[]|e]; reflexivity.
Qed.

Lemma get_result_unwraps (rpc : nat) (c : ctx) (w : world) :
  get_result rpc c w = (wait rpc ;; check_success rpc) c w.
Proof.
  unfold get_result, bind.
  destruct (wait rpc c w) as [[[]|e] w']; [|reflexivity].
  destruct (check_success rpc c w') as [[[]|e] w'']; reflexivity.
Qed.

(** C9: each synchronous mutating operation runs exactly as "invoke the
    asynchronous form, then wait for and unwrap the result of the returned
    handle" does: the same result or raised error and the same final world
    (trace of calls and handles), in every process and from every world. *)
Theorem sync_form_is_async_then_await (op : mutation) (module version : option string)
    (c : ctx) (w : world) :
  sync_form op module version c w
  = invoke_then_await (async_form op module version) c w.
Proof.
  destruct op; unfold sync_form, async_form, invoke_then_await,
    set_num_instances, start_version, stop_version; unfold bind at 1;
    symmetry; unfold bind at 1; symmetry.
  - destruct (set_num_instances_async _ _ _ c w) as [[rpc|e] w']; [|reflexivity].
    apply get_result_unwraps.
  - destruct (start_version_async _ _ c w) as [[rpc|e] w']; [|reflexivity].
    apply get_result_unwraps.
  - destruct (stop_version_async _ _ c w) as [[rpc|e] w']; [|reflexivity].
    apply get_result_unwraps.
Qed.

(** ** Runs of the operations once their request is determined *)

Lemma request_of_get_num_instances (env : gmap string string)
    (module version : option string) (req : request) :
  request_of env (GetNumInstances module version) = Ok req ->
  exists m v project,
    default_to module get_current_module_name env = Ok m
    /\ default_to version get_current_version_name env = Ok v
    /\ _get_project_id env = Ok project
    /\ req = VersionsGet project m v.
Proof.
  unfold request_of.
  destruct (default_to module _ env) as [m|]; [|discriminate].
  destruct (default_to version _ env) as [v|]; [|discriminate].
  destruct (_get_project_id env) as [project|]; [|discriminate].
  intros [= <-]. exists m, v, project. auto.
Qed.

Lemma request_of_mutate (env : gmap string string) (op : mutation)
    (module version : option string) (req : request) :
  request_of env (Mutate op module version) = Ok req ->
  exists body mask m v project,
    patch_of op = Ok (body, mask)
    /\ default_to module get_current_module_name env = Ok m
    /\ default_to version get_current_version_name env = Ok v
    /\ _get_project_id env = Ok project
    /\ req = VersionsPatch project m v mask body.
Proof.
  unfold request_of.
  destruct (patch_of op) as [[body mask]|]; [|discriminate].
  destruct (default_to module _ env) as [m|]; [|discriminate].
  destruct (default_to version _ env) as [v|]; [|discriminate].
  destruct (_get_project_id env) as [project|]; [|discriminate].
  intros [= <-]. exists body, mask, m, v, project. auto.
Qed.

Lemma get_default_version_failed (c : ctx) (w : world) (module : option string)
    (req : request) (status : Z) :
  request_of (environ c) (GetDefaultVersion module) = Ok req ->
  api c req = HttpFailure status ->
  fst (get_default_version module c w)
  = Raise (if (status =? 404)%Z
           then InvalidModuleError
                  (Msg ("Module '" ++ module_or_service (environ c) module ++ "' not found."))
           else _raise_error_exn status).
Proof.
  unfold request_of. destruct (_get_project_id (environ c)) as [project|] eqn:Hp;
    [|discriminate].
  intros [= <-] Ha. unfold get_default_version. run_monad. rewrite Hp. cbv beta iota.
  cbn [trace rpcs]. rewrite Ha.
  destruct (status =? 404)%Z; reflexivity.
Qed.

Lemma get_num_instances_run (c : ctx) (w : world) (module version : option string)
    (req : request) :
  request_of (environ c) (GetNumInstances module version) = Ok req ->
  get_num_instances module version c w
  = (version_result (api c req),
     {| trace := (trace w ++ [DiscoveryBuild]) ++ [Execute req]; rpcs := rpcs w |}).
Proof.
  intros Hreq. apply request_of_get_num_instances in Hreq
    as (m & v & project & Hm & Hv & Hp & ->).
  unfold get_num_instances. run_monad. rewrite Hm, Hv, Hp. cbv beta iota.
  cbn [trace rpcs]. unfold version_result.
  destruct (api c _) as [r|status|descr]; try reflexivity.
  destruct (manualScaling r); reflexivity.
Qed.

(** A synchronous mutating operation: one thread, one request, and the
    translated failure of that request, under either scheduling. *)
Lemma sync_form_run (op : mutation) (module version : option string) (c : ctx) (w : world)
    (req : request) :
  request_of (environ c) (Mutate op module version) = Ok req ->
  sync_form op module version c w
  = (patch_result (api c req),
     {| trace := ((trace w ++ [ThreadStart (length (rpcs w))]) ++ [DiscoveryBuild])
                   ++ [Execute req];
        rpcs := rpcs w ++ [{| thread := None;
                              exception := captured (patch_result (api c req));
                              done := true |}] |}).
Proof.
  intros Hreq. apply request_of_mutate in Hreq
    as (body & mask & m & v & project & Hop & Hm & Hv & Hp & ->).
  destruct op as [n| |]; simpl in Hop.
  - destruct (Py.isinstance_integer_types n) eqn:Hint; [|discriminate].
    injection Hop as <- <-.
    unfold sync_form, set_num_instances, set_num_instances_async.
    rewrite Hint. cbn [negb]. unfold bind, lift. rewrite Hp, Hm, Hv.
    exact (start_then_get_result _ c w).
  - injection Hop as <- <-.
    unfold sync_form, start_version, start_version_async.
    unfold bind, lift. rewrite Hp, Hm, Hv.
    exact (start_then_get_result _ c w).
  - injection Hop as <- <-.
    unfold sync_form, stop_version, stop_version_async.
    unfold bind, lift. rewrite Hp, Hm, Hv.
    exact (start_then_get_result _ c w).
Qed.



(** C10: when the version-get request of [get_num_instances] is answered
    with a version that has no [manualScaling], the call returns 0; and
    the call raises only if that request failed (it was not answered). *)
Theorem get_num_instances_not_manual (c : ctx) (w : world) (module version : option string)
    (req : request) :
  request_of (environ c) (GetNumInstances module version) = Ok req ->
  (forall r, api c req = Returned r -> manualScaling r = None ->
     fst (get_num_instances module version c w) = Ok (Some 0%Z))
  /\ (raises (fst (get_num_instances module version c w)) ->
      (exists status, api c req = HttpFailure status)
      \/ (exists descr, api c req = OtherFailure descr)).
Proof.
  intros Hreq. rewrite (get_num_instances_run c w module version req Hreq).
  cbn [fst]. unfold version_result. split.
  - intros r -> ->. reflexivity.
  - destruct (api c req) as [r|status|descr]; [|eauto|eauto].
    destruct (manualScaling r); intros [].
Qed.

(** ** The request of an operation *)

(** [request_of] is the request the code sends: when it is determined, the
    run ends its trace with the building of the client and that request. *)
Lemma run_operation_sends (c : ctx) (w : world) (op : operation) (req : request) :
  request_of (environ c) op = Ok req ->
  exists before,
    trace (snd (run_operation op c w)) = (before ++ [DiscoveryBuild]) ++ [Execute req].
Proof.
  intros Hreq. destruct op as [module|module version|op module version].
  - unfold request_of in Hreq.
    destruct (_get_project_id (environ c)) as [project|] eqn:Hp; [|discriminate].
    injection Hreq as <-. exists (trace w).
    unfold run_operation, get_default_version. run_monad. rewrite Hp. cbv beta iota.
    cbn [trace rpcs].
    destruct (api c _) as [r|status|descr]; [| |reflexivity].
    + destruct (response_allocations r) as [[|item items]|]; try reflexivity.
      destruct (allocations_loop (item :: items) (-1) None) as [[v|]|e]; reflexivity.
    + destruct (status =? 404)%Z; reflexivity.
  - exists (trace w). unfold run_operation, bind.
    rewrite (get_num_instances_run c w _ _ req Hreq).
    destruct (version_result _); reflexivity.
  - eexists. unfold run_operation. rewrite (sync_form_run op _ _ c w req Hreq). reflexivity.
Qed.

(** When it is not, the operation raises and leaves the world as it was:
    nothing was sent and no thread was started. *)
Lemma run_operation_unsent (c : ctx) (w : world) (op : operation) (e : exn) :
  request_of (environ c) op = Raise e ->
  snd (run_operation op c w) = w /\ raises (fst (run_operation op c w)).
Proof.
  intros Hreq. destruct op as [module|module version|[n| |] module version];
    simpl in Hreq;
    unfold run_operation, sync_form, get_default_version, get_num_instances,
      set_num_instances, set_num_instances_async, start_version, start_version_async,
      stop_version, stop_version_async, bind, lift, ret;
    [ | | destruct (Py.isinstance_integer_types n); cbn [negb]; [|split; [reflexivity|exact I]]
      | | ];
    cbv beta iota;
    try destruct (default_to module get_current_module_name (environ c));
    try destruct (default_to version get_current_version_name (environ c));
    destruct (_get_project_id (environ c));
    try discriminate; split; solve [reflexivity | exact I].
Qed.



Lemma get_num_instances_not_manual_witness :
  (forall r, api (test_ctx (Returned empty_response) false)
               (VersionsGet "project" (Some "default") (Some "v1")) = Returned r ->
     manualScaling r = None ->
     fst (get_num_instances None None (test_ctx (Returned empty_response) false)
            initial_world) = Ok (Some 0%Z))
  /\ (raises (fst (get_num_instances None None (test_ctx (Returned empty_response) false)
                     initial_world)) ->
      (exists status, api (test_ctx (Returned empty_response) false)
                        (VersionsGet "project" (Some "default") (Some "v1"))
                      = HttpFailure status)
      \/ (exists descr, api (test_ctx (Returned empty_response) false)
                          (VersionsGet "project" (Some "default") (Some "v1"))
                        = OtherFailure descr)).
Proof.
  apply (get_num_instances_not_manual (test_ctx (Returned empty_response) false)
           initial_world None None (VersionsGet "project" (Some "default") (Some "v1"))).
  vm_compute. reflexivity.
Defined.

(** ** The unit tests of the module, replayed *)

Example testGetNumInstances :
  fst (get_num_instances None None
         (test_ctx (Returned {| split := None;
                                manualScaling := Some {| instances := Some 5%Z |};
                                defaultHostname := None |}) false)
         initial_world) = Ok (Some 5%Z).
Proof. vm_compute. reflexivity. Qed.

Example testGetNumInstances_NoManualScaling :
  get_num_instances None None (test_ctx (Returned empty_response) false) initial_world
  = (Ok (Some 0%Z),
     {| trace := [DiscoveryBuild;
                  Execute (VersionsGet "project" (Some "default") (Some "v1"))];
        rpcs := [] |}).
Proof. vm_compute. reflexivity. Qed.

Example testGetNumInstances_InvalidVersion :
  fst (get_num_instances None (Some "v-bad") (test_ctx (HttpFailure 404) false) initial_world)
  = Raise (InvalidVersionError (FromHttp 404)).
Proof. vm_compute. reflexivity. Qed.

Example testGetDefaultVersion_InvalidModule :
  fst (get_default_version (Some "foo") (test_ctx (HttpFailure 404) false) initial_world)
  = Raise (InvalidModuleError (Msg "Module 'foo' not found.")).
Proof. vm_compute. reflexivity. Qed.

Example testSetNumInstances (sched : bool) :
  set_num_instances (Py.PyInt 10) None None (test_ctx (Returned empty_response) sched)
    initial_world
  = (Ok tt,
     {| trace := [ThreadStart 0; DiscoveryBuild;
                  Execute (VersionsPatch "project" (Some "default") (Some "v1")
                             "manualScaling.instances" (ManualScalingBody (Py.PyInt 10)))];
        rpcs := [{| thread := None; exception := None; done := true |}] |}).
Proof. destruct sched; vm_compute; reflexivity. Qed.

Example testSetNumInstances_InvalidInstancesError (sched : bool) :
  fst (set_num_instances (Py.PyInt (-1)) None None (test_ctx (HttpFailure 400) sched)
         initial_world)
  = Raise (InvalidInstancesError (FromHttp 400)).
Proof. destruct sched; vm_compute; reflexivity. Qed.

Example testStartVersion_InvalidVersion (sched : bool) :
  fst (start_version (Some "default") (Some "v-bad") (test_ctx (HttpFailure 404) sched)
         initial_world)
  = Raise (InvalidVersionError (FromHttp 404)).
Proof. destruct sched; vm_compute; reflexivity. Qed.

Example testStopVersion_TransientError (sched : bool) :
  fst (stop_version None None (test_ctx (HttpFailure 500) sched) initial_world)
  = Raise (TransientError (FromHttp 500)).
Proof. destruct sched; vm_compute; reflexivity. Qed.

Example testRaiseError_Generic (sched : bool) :
  fst (stop_version None None (test_ctx (HttpFailure 401) sched) initial_world)
  = Raise (Error (FromHttp 401)).
Proof. destruct sched; vm_compute; reflexivity. Qed.

Example testGetHostname :
  fst (get_hostname None None (Some "i")
         (test_ctx (Returned {| split := None; manualScaling := None;
                                defaultHostname := Some "project.appspot.com" |}) false)
         initial_world)
  = Ok "i.v1.default.project.appspot.com".
Proof. vm_compute. reflexivity. Qed.

(** [get_hostname] does not translate: the [HttpError] comes out as it is. *)
Example get_hostname_untranslated :
  fst (get_hostname None None None (test_ctx (HttpFailure 503) false) initial_world)
  = Raise (HttpError 503).
Proof. vm_compute. reflexivity. Qed.

(** ** Outside the range of a traffic split *)

(** The loop starts from [maxAlloc = -1]: a first weight of exactly -1 is
    compared with the [None] in [retVersion], and weights below -1 are
    never selected. *)
Example allocations_loop_minus_one :
  allocations_loop [("a", (-1)%Q); ("b", 1%Q)] (-1) None
  = Raise (TypeError "'<' not supported between instances of 'str' and 'NoneType'").
Proof. vm_compute. reflexivity. Qed.

Example allocations_loop_below_initial :
  allocations_loop [("a", (-2)%Q)] (-1) None = Ok None.
Proof. vm_compute. reflexivity. Qed.

(** ** Scheduling *)

Lemma sync_form_any_schedule (op : mutation) (module version : option string)
    (env : gmap string string) (a : request -> outcome) (w : world) :
  sync_form op module version {| environ := env; api := a; eager := true |} w
  = sync_form op module version {| environ := env; api := a; eager := false |} w.
Proof.
  destruct (request_of env (Mutate op module version)) as [req|e] eqn:Hreq.
  - rewrite (sync_form_run op module version {| environ := env; api := a; eager := true |}
               w req Hreq).
    rewrite (sync_form_run op module version {| environ := env; api := a; eager := false |}
               w req Hreq).
    reflexivity.
  - unfold request_of in Hreq.
    destruct op as [n| |]; simpl in Hreq;
      unfold sync_form, set_num_instances, set_num_instances_async,
      start_version, start_version_async, stop_version, stop_version_async, bind, lift;
      [destruct (Py.isinstance_integer_types n); cbn [negb]; [|reflexivity] | |];
      cbv beta iota; simpl environ;
      destruct (default_to module get_current_module_name env);
      destruct (default_to version get_current_version_name env);
      destruct (_get_project_id env); try discriminate; reflexivity.
Qed.

(** * Further properties *)

(** ** Project id *)

Lemma split_no_more (sep : ascii) (s : string) : Py.split sep (Some 0%nat) s = [s].
Proof.
  induction s as [|ch s IH]; simpl; [reflexivity|].
  destruct (Ascii.eqb ch sep); [reflexivity|]. rewrite IH. reflexivity.
Qed.

Lemma split_without (sep : ascii) (maxsplit : option nat) (s : string) :
  contains sep s = false -> Py.split sep maxsplit s = [s].
Proof.
  induction s as [|ch s IH]; simpl; [reflexivity|].
  intros H. apply orb_false_iff in H as [Hch Hs]. rewrite Hch, (IH Hs). reflexivity.
Qed.

Lemma split_once (sep : ascii) (a b : string) :
  contains sep a = false ->
  Py.split sep (Some 1%nat) (a ++ String sep b) = [a; b].
Proof.
  induction a as [|ch a IH]; simpl.
  - intros _. rewrite Ascii.eqb_refl, split_no_more. reflexivity.
  - intros H. apply orb_false_iff in H as [Hch Ha]. rewrite Hch, (IH Ha). reflexivity.
Qed.

Lemma contains_decompose (sep : ascii) (s : string) :
  contains sep s = true ->
  exists a b, s = (a ++ String sep b)%string /\ contains sep a = false.
Proof.
  induction s as [|ch s IH]; simpl; [discriminate|].
  destruct (Ascii.eqb ch sep) eqn:Hch; simpl.
  - intros _. apply Ascii.eqb_eq in Hch. subst ch. exists EmptyString, s. auto.
  - intros H. destruct (IH H) as (a & b & -> & Ha).
    exists (String ch a), b. simpl. rewrite Hch, Ha. auto.
Qed.

(** X1: without a project variable, the project id is what follows the
    first ['~'] of [GAE_APPLICATION]: the partition before it is dropped
    and later ['~'] are kept. *)
Theorem _get_project_id_application (env : gmap string string) (partition rest : string) :
  project_unset env ->
  env !! "GAE_APPLICATION" = Some (partition ++ String "~" rest)%string ->
  contains "~" partition = false ->
  _get_project_id env = Ok rest.
Proof.
  unfold project_unset, _get_project_id. intros -> -> Hpart.
  rewrite (split_once "~" partition rest Hpart). reflexivity.
Qed.

Lemma _get_project_id_application_witness :
  _get_project_id {[ "GAE_APPLICATION" := "s~my~app" ]} = Ok "my~app".
Proof.
  apply (_get_project_id_application {[ "GAE_APPLICATION" := "s~my~app" ]} "s" "my~app");
    reflexivity.
Defined.

(** X2: [_get_project_id] raises exactly when no project variable gives an
    id and [GAE_APPLICATION] is unset or holds no ['~']; it is then
    [AttributeError] (of [None.split]) when the variable is unset, and
    [IndexError] (of [[1]]) when it holds no ['~']. *)
Theorem _get_project_id_raises (env : gmap string string) :
  (raises (_get_project_id env)
   <-> project_unset env
       /\ (env !! "GAE_APPLICATION" = None
           \/ exists app_id, env !! "GAE_APPLICATION" = Some app_id
                             /\ contains "~" app_id = false))
  /\ (project_unset env -> env !! "GAE_APPLICATION" = None ->
      _get_project_id env
      = Raise (AttributeError "'NoneType' object has no attribute 'split'"))
  /\ (forall app_id,
        project_unset env -> env !! "GAE_APPLICATION" = Some app_id ->
        contains "~" app_id = false ->
        _get_project_id env = Raise (IndexError "list index out of range")).
Proof.
  split; [|split].
  - unfold project_unset, _get_project_id.
    destruct (Py.or_ _ _) as [project|].
    { simpl. split; [intros [] | intros [? _]; discriminate]. }
    destruct (env !! "GAE_APPLICATION") as [app_id|].
    + destruct (contains "~" app_id) eqn:Hc.
      * destruct (contains_decompose _ _ Hc) as (a & b & -> & Ha).
        rewrite (split_once "~" a b Ha). simpl.
        split; [intros [] |].
        intros [_ [?|(app & [= <-] & Hno)]]; [discriminate|]. congruence.
      * rewrite (split_without "~" _ _ Hc). simpl.
        split; [|intros; exact I]. intros _. split; [reflexivity|]. right. eauto.
    + simpl. split; [|intros; exact I]. intros _. auto.
  - unfold project_unset, _get_project_id. intros -> ->. reflexivity.
  - unfold project_unset, _get_project_id. intros app_id -> -> Hc.
    rewrite (split_without "~" _ _ Hc). reflexivity.
Qed.

Lemma _get_project_id_raises_witness :
  _get_project_id ∅ = Raise (AttributeError "'NoneType' object has no attribute 'split'")
  /\ _get_project_id {[ "GAE_APPLICATION" := "project" ]}
     = Raise (IndexError "list index out of range").
Proof.
  split.
  - apply (proj1 (proj2 (_get_project_id_raises ∅))); reflexivity.
  - apply (proj2 (proj2 (_get_project_id_raises {[ "GAE_APPLICATION" := "project" ]}))
             "project"); reflexivity.
Defined.

Lemma _get_project_id_raise_kind (env : gmap string string) (e : exn) :
  _get_project_id env = Raise e -> local_error e.
Proof.
  unfold _get_project_id. destruct (Py.or_ _ _); [discriminate|].
  destruct (env !! "GAE_APPLICATION"); [|intros [= <-]; exact I].
  unfold index. destruct (_ !! _); [discriminate|]. intros [= <-]. exact I.
Qed.

(** ** Identity *)

(** X3: a primary variable set to the empty string counts as unset: each
    getter, and the project id, answers as if the variable were deleted. *)
Theorem empty_primary_is_unset (env : gmap string string) :
  get_current_module_name (<["GAE_SERVICE" := ""]> env)
  = get_current_module_name (delete "GAE_SERVICE" env)
  /\ get_current_version_name (<["GAE_VERSION" := ""]> env)
     = get_current_version_name (delete "GAE_VERSION" env)
  /\ get_current_instance_id (<["GAE_INSTANCE" := ""]> env)
     = get_current_instance_id (delete "GAE_INSTANCE" env)
  /\ _get_project_id (<["GAE_PROJECT" := ""]> env)
     = _get_project_id (delete "GAE_PROJECT" env).
Proof.
  unfold get_current_module_name, get_current_version_name, get_current_instance_id,
    _get_project_id, getitem.
  rewrite !lookup_insert_eq, !lookup_delete_eq.
  rewrite !lookup_insert_ne, !lookup_delete_ne by discriminate.
  repeat split.
Qed.

Lemma before_without (sep : ascii) (s : string) : contains sep (Py.before sep s) = false.
Proof.
  induction s as [|ch s IH]; simpl; [reflexivity|].
  destruct (Ascii.eqb ch sep) eqn:Hch; simpl; [reflexivity|]. rewrite Hch, IH. reflexivity.
Qed.

Lemma before_prefix (sep : ascii) (s : string) :
  exists rest, s = (Py.before sep s ++ rest)%string.
Proof.
  induction s as [|ch s [rest IH]]; simpl; [exists EmptyString; reflexivity|].
  destruct (Ascii.eqb ch sep).
  - exists (String ch s). reflexivity.
  - exists rest. rewrite IH at 1. reflexivity.
Qed.

(** X4: a version name taken from [CURRENT_VERSION_ID] (no usable
    [GAE_VERSION]) is a prefix of that variable, holds no ['.'] and is
    never the string ["None"]. *)
Theorem get_current_version_name_derived (env : gmap string string) (v : string) :
  Py.truthy (env !! "GAE_VERSION") = false ->
  get_current_version_name env = Ok (Some v) ->
  contains "." v = false
  /\ v <> "None"
  /\ exists rest, env !! "CURRENT_VERSION_ID" = Some (v ++ rest)%string.
Proof.
  intros Hprimary Hv.
  destruct (env !! "CURRENT_VERSION_ID") as [current|] eqn:Hsecondary.
  - rewrite (get_current_version_name_secondary env current Hprimary Hsecondary) in Hv.
    destruct (String.eqb (Py.before "." current) "None") eqn:Hnone; [discriminate|].
    injection Hv as <-. split; [apply before_without|]. split.
    + apply String.eqb_neq. exact Hnone.
    + destruct (before_prefix "." current) as [rest Hrest]. exists rest. congruence.
  - unfold get_current_version_name, getitem in Hv. rewrite Hprimary, Hsecondary in Hv.
    discriminate.
Qed.

Lemma get_current_version_name_derived_witness :
  contains "." "v3" = false
  /\ "v3" <> "None"
  /\ exists rest, secondary_only "v3.456" !! "CURRENT_VERSION_ID" = Some ("v3" ++ rest)%string.
Proof.
  apply (get_current_version_name_derived (secondary_only "v3.456") "v3"); reflexivity.
Defined.

Lemma get_current_version_name_raise_kind (env : gmap string string) (e : exn) :
  get_current_version_name env = Raise e -> e = KeyError "CURRENT_VERSION_ID".
Proof.
  unfold get_current_version_name, getitem.
  destruct (Py.truthy _); [discriminate|].
  destruct (env !! "CURRENT_VERSION_ID") as [current|]; [|congruence].
  rewrite split_first. discriminate.
Qed.

Lemma get_current_version_name_unset_raises (env : gmap string string) :
  version_unset env ->
  get_current_version_name env = Raise (KeyError "CURRENT_VERSION_ID").
Proof.
  intros [Hprimary Hsecondary]. unfold get_current_version_name, getitem.
  rewrite Hprimary, Hsecondary. reflexivity.
Qed.

(** X5: with neither version variable set, every operation that defaults
    its version raises [KeyError] and leaves the world as it was: nothing
    is built, sent or started, whatever the module and the project. *)
Theorem version_unset_propagates (c : ctx) (w : world) (module instance : option string) :
  version_unset (environ c) ->
  get_num_instances module None c w = (Raise (KeyError "CURRENT_VERSION_ID"), w)
  /\ start_version module None c w = (Raise (KeyError "CURRENT_VERSION_ID"), w)
  /\ stop_version module None c w = (Raise (KeyError "CURRENT_VERSION_ID"), w)
  /\ get_hostname module None instance c w = (Raise (KeyError "CURRENT_VERSION_ID"), w).
Proof.
  intros Hunset. apply get_current_version_name_unset_raises in Hunset.
  unfold get_num_instances, start_version, start_version_async, stop_version,
    stop_version_async, get_hostname, bind, lift.
  destruct module as [m|]; simpl; rewrite Hunset; repeat split.
Qed.

Lemma version_unset_propagates_witness :
  get_num_instances None None
    {| environ := ∅; api := fun _ => OtherFailure "unreachable"; eager := true |} initial_world
  = (Raise (KeyError "CURRENT_VERSION_ID"), initial_world)
  /\ start_version None None
       {| environ := ∅; api := fun _ => OtherFailure "unreachable"; eager := true |}
       initial_world
     = (Raise (KeyError "CURRENT_VERSION_ID"), initial_world)
  /\ stop_version None None
       {| environ := ∅; api := fun _ => OtherFailure "unreachable"; eager := true |}
       initial_world
     = (Raise (KeyError "CURRENT_VERSION_ID"), initial_world)
  /\ get_hostname None None None
       {| environ := ∅; api := fun _ => OtherFailure "unreachable"; eager := true |}
       initial_world
     = (Raise (KeyError "CURRENT_VERSION_ID"), initial_world).
Proof.
  apply (version_unset_propagates
           {| environ := ∅; api := fun _ => OtherFailure "unreachable"; eager := true |}
           initial_world None None).
  split; reflexivity.
Defined.

(** ** Default version: what can be returned *)

Lemma allocations_loop_raise_kind (items : list (string * Q)) (m : Q) (r : option string)
    (e : exn) :
  allocations_loop items m r = Raise e -> local_error e.
Proof.
  revert m r. induction items as [|[version allocation] items IH]; intros m r; simpl.
  - discriminate.
  - destruct (Qeq_bool allocation 1); [discriminate|].
    destruct (Qlt_bool m allocation); [apply IH|].
    destruct (Qeq_bool allocation m); [|apply IH].
    destruct r as [current|]; [|intros [= <-]; exact I].
    destruct (String.ltb version current); apply IH.
Qed.

(** Whatever the loop returns is an entry it went through, or the version
    it started with; a version is only ever kept with a weight above -1. *)
Lemma allocations_loop_member (all items : list (string * Q)) :
  (forall it, In it items -> In it all) ->
  forall m r,
    (-1 <= m)%Q ->
    (forall v, r = Some v -> (-1 < m)%Q /\ exists a, In (v, a) all /\ (-1 < a)%Q) ->
    forall v, allocations_loop items m r = Ok (Some v) ->
              exists a, In (v, a) all /\ (-1 < a)%Q.
Proof.
  induction items as [|[version allocation] items IH]; intros Hincl m r Hm Hr v; simpl.
  - intros [= ->]. apply Hr. reflexivity.
  - assert (Hhere : In (version, allocation) all) by (apply Hincl; left; reflexivity).
    assert (Hrest : forall it, In it items -> In it all)
      by (intros it H; apply Hincl; right; exact H).
    destruct (Qeq_bool allocation 1) eqn:E1.
    { intros [= <-]. apply Qeq_bool_iff in E1. exists allocation. split; [exact Hhere | lra]. }
    destruct (Qlt_bool m allocation) eqn:E2.
    { apply Qlt_bool_iff in E2. apply (IH Hrest); [lra|].
      intros v' [= <-]. split; [lra|]. exists allocation. split; [exact Hhere | lra]. }
    destruct (Qeq_bool allocation m) eqn:E3; [|apply (IH Hrest); assumption].
    apply Qeq_bool_iff in E3.
    destruct r as [current|]; [|discriminate].
    destruct (Hr current eq_refl) as [Hstrict _].
    destruct (String.ltb version current); apply (IH Hrest); try assumption.
    intros v' [= <-]. split; [exact Hstrict|]. exists allocation. split; [exact Hhere | lra].
Qed.

(** X6: a version name returned by [get_default_version] is a key of the
    allocations the service was answered with, and its weight is above -1;
    this holds for all weights, inside the range of a traffic split or not. *)
Theorem get_default_version_member (c : ctx) (w : world) (module : option string)
    (v : string) :
  fst (get_default_version module c w) = Ok v ->
  exists project r items a,
    _get_project_id (environ c) = Ok project
    /\ api c (ServicesGet project (module_or_service (environ c) module)) = Returned r
    /\ response_allocations r = Some items
    /\ In (v, a) items /\ (-1 < a)%Q.
Proof.
  destruct (_get_project_id (environ c)) as [project|e] eqn:Hp.
  2:{ unfold get_default_version. run_monad. rewrite Hp. discriminate. }
  destruct (api c (ServicesGet project (module_or_service (environ c) module)))
    as [r|status|descr] eqn:Ha.
  - rewrite (get_default_version_answered c w module project r Hp Ha). cbn [fst].
    destruct (response_allocations r) as [[|item items]|] eqn:Hr; try discriminate.
    destruct (allocations_loop (item :: items) (-1) None) as [[v'|]|e] eqn:Hloop;
      try discriminate.
    intros [= <-].
    destruct (allocations_loop_member (item :: items) (item :: items) (fun _ H => H)
                (-1) None ltac:(lra) ltac:(discriminate) v' Hloop) as (a & Hin & Ha').
    exists project, r, (item :: items), a. auto.
  - unfold get_default_version. run_monad. rewrite Hp. cbv beta iota. cbn [trace rpcs].
    rewrite Ha. destruct (status =? 404)%Z; discriminate.
  - unfold get_default_version. run_monad. rewrite Hp. cbv beta iota. cbn [trace rpcs].
    rewrite Ha. discriminate.
Qed.

Lemma get_default_version_member_witness :
  exists project r items a,
    _get_project_id (environ (test_ctx (Returned (service_response tied_halves)) false))
    = Ok project
    /\ api (test_ctx (Returned (service_response tied_halves)) false)
         (ServicesGet project
            (module_or_service
               (environ (test_ctx (Returned (service_response tied_halves)) false)) None))
       = Returned r
    /\ response_allocations r = Some items
    /\ In ("v1-stable", a) items /\ (-1 < a)%Q.
Proof.
  apply (get_default_version_member
           (test_ctx (Returned (service_response tied_halves)) false) initial_world None
           "v1-stable").
  vm_compute. reflexivity.
Defined.

(** X7: without a weight of 1.0, the version [get_default_version] returns
    does not depend on the order in which the allocations are iterated:
    two answers whose allocations are permutations of each other give the
    same version. *)
Theorem get_default_version_any_order (c c' : ctx) (w w' : world)
    (module module' : option string) (r r' : response) (items items' : list (string * Q)) :
  service_get_returns c module r ->
  service_get_returns c' module' r' ->
  response_allocations r = Some items ->
  response_allocations r' = Some items' ->
  Permutation items items' ->
  items <> [] ->
  Forall traffic_weight items ->
  Forall (fun it => ~ weight_eq_one it) items ->
  fst (get_default_version module c w) = fst (get_default_version module' c' w').
Proof.
  intros (project & Hp & Ha) (project' & Hp' & Ha') Hr Hr' Hperm Hne Hrange Hno.
  rewrite (get_default_version_answered c w module project r Hp Ha), Hr.
  rewrite (get_default_version_answered c' w' module' project' r' Hp' Ha'), Hr'.
  pose proof (traffic_weight_above items Hrange) as Habove.
  destruct (allocations_loop_max items Hne Habove Hno) as (m & v & Hloop & _).
  pose proof (allocations_loop_order items items' Hperm Hne Habove Hno) as Horder.
  destruct items as [|item items]; [congruence|].
  destruct items' as [|item' items'].
  { apply Permutation_nil_r in Hperm. discriminate. }
  cbn [fst]. rewrite <- Horder, Hloop. reflexivity.
Qed.

Lemma get_default_version_any_order_witness :
  fst (get_default_version None
         (test_ctx (Returned (service_response tied_halves)) false) initial_world)
  = fst (get_default_version None
           (test_ctx (Returned (service_response (rev tied_halves))) true) initial_world).
Proof.
  apply (get_default_version_any_order _ _ _ _ _ _
           (service_response tied_halves) (service_response (rev tied_halves))
           tied_halves (rev tied_halves)).
  - exists "project". split; vm_compute; reflexivity.
  - exists "project". split; vm_compute; reflexivity.
  - reflexivity.
  - reflexivity.
  - apply Permutation_rev.
  - discriminate.
  - repeat constructor; unfold Qle; simpl; lia.
  - repeat constructor; unfold weight_eq_one, Qeq; simpl; lia.
Defined.

(** ** Default version: weights at or below the initial maximum *)

Lemma allocations_loop_below (items : list (string * Q)) :
  Forall (fun it => (snd it < -1)%Q) items ->
  allocations_loop items (-1) None = Ok None.
Proof.
  induction 1 as [|[version allocation] items Hlow _ IH]; simpl in *; [reflexivity|].
  replace (Qeq_bool allocation 1) with false
    by (symmetry; apply Qeq_bool_false; lra).
  replace (Qlt_bool (-1) allocation) with false
    by (symmetry; apply Qlt_bool_false; lra).
  replace (Qeq_bool allocation (-1)) with false
    by (symmetry; apply Qeq_bool_false; lra).
  exact IH.
Qed.

(** X8: allocations whose weights are all below -1, the initial
    [maxAlloc], are treated like an empty map: [get_default_version]
    raises [InvalidVersionError], however many entries there are. *)
Theorem get_default_version_all_below (c : ctx) (w : world) (module : option string)
    (r : response) (items : list (string * Q)) :
  service_get_returns c module r ->
  response_allocations r = Some items ->
  Forall (fun it => (snd it < -1)%Q) items ->
  fst (get_default_version module c w)
  = Raise (InvalidVersionError
             (Msg ("Could not determine default version for module '"
                   ++ module_or_service (environ c) module ++ "'."))).
Proof.
  intros (project & Hp & Ha) Hr Hlow.
  rewrite (get_default_version_answered c w module project r Hp Ha), Hr.
  destruct items as [|item items]; [reflexivity|].
  rewrite (allocations_loop_below _ Hlow). reflexivity.
Qed.

Lemma get_default_version_all_below_witness :
  fst (get_default_version None
         (test_ctx (Returned (service_response [("v1", (-2)%Q); ("v2", (-3)%Q)])) false)
         initial_world)
  = Raise (InvalidVersionError
             (Msg "Could not determine default version for module 'default'.")).
Proof.
  apply (get_default_version_all_below
           (test_ctx (Returned (service_response [("v1", (-2)%Q); ("v2", (-3)%Q)])) false)
           initial_world None
           (service_response [("v1", (-2)%Q); ("v2", (-3)%Q)])
           [("v1", (-2)%Q); ("v2", (-3)%Q)]).
  - exists "project". split; vm_compute; reflexivity.
  - reflexivity.
  - repeat constructor; unfold Qlt; simpl; lia.
Defined.

(** X9: a first weight of exactly -1 meets [retVersion = None] in the tie
    branch: [get_default_version] raises [TypeError], whatever follows in
    the allocations, a weight of 1.0 included. *)
Theorem get_default_version_first_minus_one (c : ctx) (w : world) (module : option string)
    (r : response) (version : string) (allocation : Q) (items : list (string * Q)) :
  service_get_returns c module r ->
  response_allocations r = Some ((version, allocation) :: items) ->
  (allocation == -1)%Q ->
  fst (get_default_version module c w)
  = Raise (TypeError "'<' not supported between instances of 'str' and 'NoneType'").
Proof.
  intros (project & Hp & Ha) Hr Hminus.
  rewrite (get_default_version_answered c w module project r Hp Ha), Hr.
  cbn [fst allocations_loop].
  replace (Qeq_bool allocation 1) with false
    by (symmetry; apply Qeq_bool_false; lra).
  replace (Qlt_bool (-1) allocation) with false
    by (symmetry; apply Qlt_bool_false; lra).
  replace (Qeq_bool allocation (-1)) with true
    by (symmetry; apply Qeq_bool_iff; exact Hminus).
  reflexivity.
Qed.

Lemma get_default_version_first_minus_one_witness :
  fst (get_default_version None
         (test_ctx (Returned (service_response [("v1", (-1)%Q); ("v2", 1%Q)])) false)
         initial_world)
  = Raise (TypeError "'<' not supported between instances of 'str' and 'NoneType'").
Proof.
  apply (get_default_version_first_minus_one
           (test_ctx (Returned (service_response [("v1", (-1)%Q); ("v2", 1%Q)])) false)
           initial_world None
           (service_response [("v1", (-1)%Q); ("v2", 1%Q)]) "v1" (-1)%Q [("v2", 1%Q)]).
  - exists "project". split; vm_compute; reflexivity.
  - reflexivity.
  - reflexivity.
Defined.

(** ** Handles *)

Lemma rethrown_captured (r : result unit) : rethrown (captured r) = r.
Proof. destruct r as [[]|e]; reflexivity. Qed.

Lemma new_ThreadedRpc_run (t : target) (c : ctx) (w : world) :
  new_ThreadedRpc t c w
  = (Ok (length (rpcs w)),
     if eager c
     then {| trace := ((trace w ++ [ThreadStart (length (rpcs w))]) ++ [DiscoveryBuild])
                        ++ [Execute (target_request t)];
             rpcs := rpcs w ++ [finished c t] |}
     else {| trace := trace w ++ [ThreadStart (length (rpcs w))];
             rpcs := rpcs w ++ [pending t] |}).
Proof.
  unfold new_ThreadedRpc, alloc_rpc, log, scheduled_at_once, bind, ret.
  cbn [trace rpcs]. destruct (eager c); [|reflexivity].
  rewrite finish_run. cbn [trace rpcs]. rewrite insert_snoc. reflexivity.
Qed.

Lemma get_result_pending (id : nat) (rpc : _ThreadedRpc) (t : target) (c : ctx) (w : world) :
  rpcs w !! id = Some rpc ->
  thread rpc = Some t ->
  get_result id c w
  = (patch_result (api c (target_request t)),
     {| trace := (trace w ++ [DiscoveryBuild]) ++ [Execute (target_request t)];
        rpcs := <[id := finished c t]> (rpcs w) |}).
Proof.
  intros Hid Ht. unfold get_result, wait, check_success, get_rpc, bind, ret, raise.
  rewrite Hid, Ht. rewrite finish_run. cbn [trace rpcs].
  rewrite list_lookup_insert_eq by (eapply lookup_lt_Some; exact Hid).
  cbn [exception]. unfold finished. destruct (patch_result _) as [[]|e]; reflexivity.
Qed.

Lemma get_result_finished (id : nat) (rpc : _ThreadedRpc) (c : ctx) (w : world) :
  rpcs w !! id = Some rpc ->
  thread rpc = None ->
  get_result id c w = (rethrown (exception rpc), w).
Proof.
  intros Hid Ht. unfold get_result, wait, check_success, get_rpc, bind, ret, raise.
  rewrite Hid, Ht. rewrite Hid. destruct (exception rpc); reflexivity.
Qed.

(** X10: retrieving a result a second time changes nothing and gives the
    same outcome: the request is not sent again, and a captured failure is
    raised again. *)
Theorem get_result_again (id : nat) (c : ctx) (w : world) :
  get_result id c (snd (get_result id c w)) = get_result id c w.
Proof.
  destruct (rpcs w !! id) as [rpc|] eqn:Hid.
  - destruct (thread rpc) as [t|] eqn:Ht.
    + rewrite (get_result_pending id rpc t c w Hid Ht). cbn [snd].
      rewrite (get_result_finished id (finished c t)).
      * cbn [finished exception]. rewrite rethrown_captured. reflexivity.
      * cbn [rpcs]. apply list_lookup_insert_eq. eapply lookup_lt_Some. exact Hid.
      * reflexivity.
    + rewrite (get_result_finished id rpc c w Hid Ht). cbn [snd].
      apply (get_result_finished id rpc c w Hid Ht).
  - assert (H : get_result id c w = (Raise (AttributeError "no such object"), w)).
    { unfold get_result, wait, get_rpc, bind. rewrite Hid. reflexivity. }
    rewrite H. cbn [snd]. exact H.
Qed.

Lemma default_to_module_ok (module : option string) (env : gmap string string) :
  exists m, default_to module get_current_module_name env = Ok m.
Proof. destruct module; eexists; reflexivity. Qed.

Lemma default_to_version_kind (version : option string) (env : gmap string string) (e : exn) :
  default_to version get_current_version_name env = Raise e -> local_error e.
Proof.
  destruct version; [discriminate|]. simpl. intros H.
  apply get_current_version_name_raise_kind in H. subst e. exact I.
Qed.

Lemma async_form_run (op : mutation) (module version : option string) (c : ctx) (w : world)
    (req : request) :
  request_of (environ c) (Mutate op module version) = Ok req ->
  exists t, target_request t = req
            /\ async_form op module version c w = new_ThreadedRpc t c w.
Proof.
  intros Hreq. apply request_of_mutate in Hreq
    as (body & mask & m & v & project & Hop & Hm & Hv & Hp & ->).
  exists (target_of project m v body mask). split; [reflexivity|].
  destruct op as [n| |]; simpl in Hop.
  - destruct (Py.isinstance_integer_types n) eqn:Hint; [|discriminate].
    injection Hop as <- <-.
    unfold async_form, set_num_instances_async.
    rewrite Hint. cbn [negb]. unfold bind, lift. rewrite Hp, Hm, Hv. reflexivity.
  - injection Hop as <- <-.
    unfold async_form, start_version_async, bind, lift. rewrite Hp, Hm, Hv. reflexivity.
  - injection Hop as <- <-.
    unfold async_form, stop_version_async, bind, lift. rewrite Hp, Hm, Hv. reflexivity.
Qed.

(** X11: an asynchronous form whose request is determined returns a new
    handle whatever the answer to the request will be: a failure of the
    request is never raised by the call itself, and the handles that exist
    are left as they are. *)
Theorem async_form_returns_handle (op : mutation) (module version : option string)
    (c : ctx) (w : world) (req : request) :
  request_of (environ c) (Mutate op module version) = Ok req ->
  fst (async_form op module version c w) = Ok (length (rpcs w))
  /\ exists rpc, rpcs (snd (async_form op module version c w)) = rpcs w ++ [rpc].
Proof.
  intros Hreq. destruct (async_form_run op module version c w req Hreq) as (t & _ & ->).
  rewrite new_ThreadedRpc_run. cbn [fst snd]. split; [reflexivity|].
  destruct (eager c); eexists; reflexivity.
Qed.

Lemma async_form_returns_handle_witness :
  fst (async_form StopVersion None None (test_ctx (HttpFailure 500) true) initial_world)
  = Ok (length (rpcs initial_world))
  /\ exists rpc,
       rpcs (snd (async_form StopVersion None None (test_ctx (HttpFailure 500) true)
                    initial_world))
       = rpcs initial_world ++ [rpc].
Proof.
  apply (async_form_returns_handle StopVersion None None (test_ctx (HttpFailure 500) true)
           initial_world
           (VersionsPatch "project" (Some "default") (Some "v1") "servingStatus"
              (ServingStatusBody "STOPPED"))).
  vm_compute. reflexivity.
Defined.

Lemma executed_app (tr tr' : list event) : executed (tr ++ tr') = executed tr ++ executed tr'.
Proof.
  induction tr as [|ev tr IH]; simpl; [reflexivity|].
  destruct ev; simpl; rewrite IH; reflexivity.
Qed.

(** X12: two asynchronous operations started one after the other and
    awaited in the reverse order each give the outcome of their own
    request, on distinct handles, and each request is sent exactly once,
    whenever the threads run. *)
Theorem two_async_results (c : ctx) (w w1 w2 w3 w4 : world)
    (op1 op2 : mutation) (m1 v1 m2 v2 : option string) (req1 req2 : request)
    (h1 h2 : nat) (r1 r2 : result unit) :
  request_of (environ c) (Mutate op1 m1 v1) = Ok req1 ->
  request_of (environ c) (Mutate op2 m2 v2) = Ok req2 ->
  async_form op1 m1 v1 c w = (Ok h1, w1) ->
  async_form op2 m2 v2 c w1 = (Ok h2, w2) ->
  get_result h2 c w2 = (r2, w3) ->
  get_result h1 c w3 = (r1, w4) ->
  r1 = patch_result (api c req1)
  /\ r2 = patch_result (api c req2)
  /\ h1 <> h2
  /\ Permutation (executed (trace w4)) (executed (trace w) ++ [req1; req2]).
Proof.
  intros Hreq1 Hreq2 Ha1 Ha2 Hg2 Hg1.
  destruct (async_form_run op1 m1 v1 c w req1 Hreq1) as (t1 & <- & E1).
  destruct (async_form_run op2 m2 v2 c w1 req2 Hreq2) as (t2 & <- & E2).
  rewrite E1, new_ThreadedRpc_run in Ha1. rewrite E2, new_ThreadedRpc_run in Ha2.
  injection Ha1 as <- <-. injection Ha2 as <- <-.
  destruct (eager c); cbn [trace rpcs] in *.
  - rewrite (get_result_finished _ (finished c t2)) in Hg2;
      [|cbn [rpcs]; apply lookup_snoc | reflexivity].
    injection Hg2 as <- <-.
    rewrite (get_result_finished _ (finished c t1)) in Hg1;
      [|cbn [rpcs]; rewrite lookup_app_l by (rewrite length_app; simpl; lia);
        apply lookup_snoc | reflexivity].
    injection Hg1 as <- <-. cbn [finished exception trace].
    rewrite !rethrown_captured. repeat split.
    + rewrite length_app. simpl. lia.
    + rewrite !executed_app. simpl. rewrite !app_nil_r, <- !app_assoc. reflexivity.
  - rewrite (get_result_pending _ (pending t2) t2) in Hg2;
      [|cbn [rpcs]; apply lookup_snoc | reflexivity].
    injection Hg2 as <- <-.
    rewrite (get_result_pending _ (pending t1) t1) in Hg1;
      [|cbn [rpcs]; rewrite list_lookup_insert_ne by (rewrite length_app; simpl; lia);
        rewrite lookup_app_l by (rewrite length_app; simpl; lia);
        apply lookup_snoc | reflexivity].
    injection Hg1 as <- <-. cbn [trace]. repeat split.
    + rewrite length_app. simpl. lia.
    + rewrite !executed_app. simpl. rewrite !app_nil_r, <- !app_assoc.
      apply Permutation_app_head. apply perm_swap.
Qed.

Lemma two_async_results_witness :
  Raise (TransientError (FromHttp 500))
  = patch_result (api (test_ctx (HttpFailure 500) false)
                    (VersionsPatch "project" (Some "default") (Some "v1") "servingStatus"
                       (ServingStatusBody "SERVING")))
  /\ Raise (TransientError (FromHttp 500))
     = patch_result (api (test_ctx (HttpFailure 500) false)
                       (VersionsPatch "project" (Some "default") (Some "v2") "servingStatus"
                          (ServingStatusBody "STOPPED")))
  /\ 0%nat <> 1%nat
  /\ Permutation
       (executed
          [ThreadStart 0; ThreadStart 1; DiscoveryBuild;
           Execute (VersionsPatch "project" (Some "default") (Some "v2") "servingStatus"
                      (ServingStatusBody "STOPPED"));
           DiscoveryBuild;
           Execute (VersionsPatch "project" (Some "default") (Some "v1") "servingStatus"
                      (ServingStatusBody "SERVING"))])
       (executed (trace initial_world)
        ++ [VersionsPatch "project" (Some "default") (Some "v1") "servingStatus"
              (ServingStatusBody "SERVING");
            VersionsPatch "project" (Some "default") (Some "v2") "servingStatus"
              (ServingStatusBody "STOPPED")]).
Proof.
  apply (two_async_results (test_ctx (HttpFailure 500) false) initial_world
           {| trace := [ThreadStart 0];
              rpcs := [pending (target_of "project" (Some "default") (Some "v1")
                                  (ServingStatusBody "SERVING") "servingStatus")] |}
           {| trace := [ThreadStart 0; ThreadStart 1];
              rpcs := [pending (target_of "project" (Some "default") (Some "v1")
                                  (ServingStatusBody "SERVING") "servingStatus");
                       pending (target_of "project" (Some "default") (Some "v2")
                                  (ServingStatusBody "STOPPED") "servingStatus")] |}
           {| trace := [ThreadStart 0; ThreadStart 1; DiscoveryBuild;
                        Execute (VersionsPatch "project" (Some "default") (Some "v2")
                                   "servingStatus" (ServingStatusBody "STOPPED"))];
              rpcs := [pending (target_of "project" (Some "default") (Some "v1")
                                  (ServingStatusBody "SERVING") "servingStatus");
                       finished (test_ctx (HttpFailure 500) false)
                         (target_of "project" (Some "default") (Some "v2")
                            (ServingStatusBody "STOPPED") "servingStatus")] |}
           {| trace := [ThreadStart 0; ThreadStart 1; DiscoveryBuild;
                        Execute (VersionsPatch "project" (Some "default") (Some "v2")
                                   "servingStatus" (ServingStatusBody "STOPPED"));
                        DiscoveryBuild;
                        Execute (VersionsPatch "project" (Some "default") (Some "v1")
                                   "servingStatus" (ServingStatusBody "SERVING"))];
              rpcs := [finished (test_ctx (HttpFailure 500) false)
                         (target_of "project" (Some "default") (Some "v1")
                            (ServingStatusBody "SERVING") "servingStatus");
                       finished (test_ctx (HttpFailure 500) false)
                         (target_of "project" (Some "default") (Some "v2")
                            (ServingStatusBody "STOPPED") "servingStatus")] |}
           StartVersion StopVersion None None None (Some "v2")
           _ _ 0%nat 1%nat);
    vm_compute; reflexivity.
Defined.

(** ** What the operations send *)

Lemma run_operation_trace (c : ctx) (w : world) (op : operation) (req : request) :
  request_of (environ c) op = Ok req ->
  exists started,
    trace (snd (run_operation op c w))
    = ((trace w ++ started) ++ [DiscoveryBuild]) ++ [Execute req]
    /\ executed started = [].
Proof.
  intros Hreq. destruct op as [module|module version|op module version].
  - unfold request_of in Hreq.
    destruct (_get_project_id (environ c)) as [project|] eqn:Hp; [|discriminate].
    injection Hreq as <-. exists []. rewrite app_nil_r. split; [|reflexivity].
    unfold run_operation, get_default_version. run_monad. rewrite Hp. cbv beta iota.
    cbn [trace rpcs].
    destruct (api c _) as [r|status|descr]; [| |reflexivity].
    + destruct (response_allocations r) as [[|item items]|]; try reflexivity.
      destruct (allocations_loop (item :: items) (-1) None) as [[v|]|e]; reflexivity.
    + destruct (status =? 404)%Z; reflexivity.
  - exists []. rewrite app_nil_r. split; [|reflexivity]. unfold run_operation, bind.
    rewrite (get_num_instances_run c w _ _ req Hreq).
    destruct (version_result _); reflexivity.
  - exists [ThreadStart (length (rpcs w))]. split; [|reflexivity].
    unfold run_operation. rewrite (sync_form_run op _ _ c w req Hreq). reflexivity.
Qed.

(** X13: an operation sends its one request when its arguments and the
    environment determine it, and nothing otherwise; it never sends a
    second request, whatever the answer (no retry, also on a status of
    500 or more), and what was traced before stays. *)
Theorem run_operation_executes (op : operation) (c : ctx) (w : world) :
  executed (trace (snd (run_operation op c w)))
  = executed (trace w)
    ++ match request_of (environ c) op with
       | Ok req => [req]
       | Raise _ => []
       end
  /\ exists added, trace (snd (run_operation op c w)) = trace w ++ added.
Proof.
  destruct (request_of (environ c) op) as [req|e] eqn:Hreq.
  - destruct (run_operation_trace c w op req Hreq) as (started & -> & Hstarted).
    split.
    + rewrite !executed_app, Hstarted. simpl. rewrite !app_nil_r. reflexivity.
    + exists (started ++ [DiscoveryBuild; Execute req]).
      rewrite <- !app_assoc. reflexivity.
  - destruct (run_operation_unsent c w op e Hreq) as [-> _].
    split; [|exists []]; rewrite app_nil_r; reflexivity.
Qed.

(** ** What the read operations leave alone *)

Lemma started_app (tr tr' : list event) : started (tr ++ tr') = started tr ++ started tr'.
Proof.
  induction tr as [|ev tr IH]; simpl; [reflexivity|].
  destruct ev; simpl; rewrite IH; reflexivity.
Qed.

Lemma thread_free_ret {A} (a : A) : thread_free (ret a).
Proof. intros c w. split; reflexivity. Qed.

Lemma thread_free_raise {A} (e : exn) : thread_free (@raise A e).
Proof. intros c w. split; reflexivity. Qed.

Lemma thread_free_lift {A} (f : gmap string string -> result A) : thread_free (lift f).
Proof. intros c w. split; reflexivity. Qed.

Lemma thread_free_build : thread_free discovery_build.
Proof.
  intros c w. split; [|reflexivity]. cbn [discovery_build log snd trace].
  rewrite started_app. apply app_nil_r.
Qed.

Lemma thread_free_execute (r : request) : thread_free (execute r).
Proof.
  intros c w. unfold execute.
  destruct (api c r); (split; [|reflexivity]); cbn [snd trace];
    rewrite started_app; apply app_nil_r.
Qed.

Lemma thread_free_bind {A B} (m : M A) (k : A -> M B) :
  thread_free m -> (forall a, thread_free (k a)) -> thread_free (bind m k).
Proof.
  intros Hm Hk c w. unfold bind. destruct (Hm c w) as [Hs Hr].
  destruct (m c w) as [[a|e] w']; simpl in *; [|auto].
  destruct (Hk a c w') as [Hs' Hr']. split; congruence.
Qed.

Lemma thread_free_except {A} (body : M A) (handler : Z -> M A) :
  thread_free body -> (forall status, thread_free (handler status)) ->
  thread_free (except_HttpError body handler).
Proof.
  intros Hb Hh c w. unfold except_HttpError. destruct (Hb c w) as [Hs Hr].
  destruct (body c w) as [[a|e] w']; simpl in *; [auto|].
  destruct e; auto. destruct (Hh status c w') as [Hs' Hr']. split; congruence.
Qed.

Ltac thread_free :=
  repeat first
    [ apply thread_free_ret | apply thread_free_raise | apply thread_free_lift
    | apply thread_free_build | apply thread_free_execute
    | apply thread_free_bind; [|intros ?]
    | apply thread_free_except; [|intros ?] ].

(** X14: the read operations never start a thread and never touch a
    handle: after [get_default_version], [get_num_instances] or
    [get_hostname], returned or raised, the trace holds the thread starts
    it held before and no other, and the handles are what they were. *)
Theorem reads_are_thread_free (module version instance : option string) :
  thread_free (get_default_version module)
  /\ thread_free (get_num_instances module version)
  /\ thread_free (get_hostname module version instance).
Proof.
  split; [|split].
  - unfold get_default_version. thread_free.
    + unfold _raise_error. destruct (_ =? 404)%Z; thread_free.
    + destruct (response_allocations _) as [[|? ?]|]; thread_free.
    + match goal with |- thread_free (match ?x with _ => _ end) => destruct x end;
        thread_free.
  - unfold get_num_instances. thread_free. destruct (manualScaling _); thread_free.
  - unfold get_hostname. thread_free.
Qed.

(** ** What the operations raise *)

Lemma _raise_error_exn_kind (status : Z) :
  match _raise_error_exn status with
  | Error (FromHttp s) => s = status /\ status <> 400%Z /\ status <> 404%Z /\ (status < 500)%Z
  | InvalidVersionError (FromHttp s) => s = status /\ status = 404%Z
  | InvalidInstancesError (FromHttp s) => s = status /\ status = 400%Z
  | TransientError (FromHttp s) => s = status /\ (500 <= status)%Z
  | _ => False
  end.
Proof.
  unfold _raise_error_exn.
  destruct (Z.eqb_spec status 400); [auto|].
  destruct (Z.eqb_spec status 404); [auto|].
  destruct (Z.leb_spec 500 status); auto with zarith.
Qed.

Lemma run_operation_unsent_kind (c : ctx) (w : world) (op : operation) (e : exn) :
  request_of (environ c) op = Raise e ->
  exists e', fst (run_operation op c w) = Raise e' /\ local_error e'.
Proof.
  intros Hreq. destruct op as [module|module version|op module version].
  - unfold request_of in Hreq.
    destruct (_get_project_id (environ c)) as [project|e0] eqn:Hp; [discriminate|].
    exists e0. split; [|exact (_get_project_id_raise_kind _ _ Hp)].
    unfold run_operation, get_default_version. run_monad. rewrite Hp. reflexivity.
  - unfold request_of in Hreq.
    destruct (default_to_module_ok module (environ c)) as [m Hm]. rewrite Hm in Hreq.
    unfold run_operation, get_num_instances, bind, lift. rewrite Hm.
    destruct (default_to version _ (environ c)) as [v|e1] eqn:Hv.
    + destruct (_get_project_id (environ c)) as [project|e2] eqn:Hp; [discriminate|].
      exists e2. split; [reflexivity | exact (_get_project_id_raise_kind _ _ Hp)].
    + exists e1. split; [reflexivity | exact (default_to_version_kind _ _ _ Hv)].
  - unfold request_of in Hreq.
    destruct (default_to_module_ok module (environ c)) as [m Hm]. rewrite Hm in Hreq.
    destruct op as [n| |]; simpl in Hreq;
      unfold run_operation, sync_form, set_num_instances, set_num_instances_async,
        start_version, start_version_async, stop_version, stop_version_async, bind, lift.
    + destruct (Py.isinstance_integer_types n); cbn [negb].
      2:{ eexists. split; [reflexivity | exact I]. }
      cbv beta iota.
      destruct (_get_project_id (environ c)) as [project|e2] eqn:Hp.
      * rewrite Hm. destruct (default_to version _ (environ c)) as [v|e1] eqn:Hv;
          [discriminate|].
        exists e1. split; [reflexivity | exact (default_to_version_kind _ _ _ Hv)].
      * exists e2. split; [reflexivity | exact (_get_project_id_raise_kind _ _ Hp)].
    + rewrite Hm. destruct (default_to version _ (environ c)) as [v|e1] eqn:Hv.
      * destruct (_get_project_id (environ c)) as [project|e2] eqn:Hp; [discriminate|].
        exists e2. split; [reflexivity | exact (_get_project_id_raise_kind _ _ Hp)].
      * exists e1. split; [reflexivity | exact (default_to_version_kind _ _ _ Hv)].
    + rewrite Hm. destruct (default_to version _ (environ c)) as [v|e1] eqn:Hv.
      * destruct (_get_project_id (environ c)) as [project|e2] eqn:Hp; [discriminate|].
        exists e2. split; [reflexivity | exact (_get_project_id_raise_kind _ _ Hp)].
      * exists e1. split; [reflexivity | exact (default_to_version_kind _ _ _ Hv)].
Qed.

(** Every exception of an operation is of one of four kinds: raised by
    Python itself, translated from the status of an [HttpError], raised by
    the client, or one of the two messages of [get_default_version]. *)
Lemma run_operation_raise_kinds (c : ctx) (w : world) (op : operation) (e : exn) :
  fst (run_operation op c w) = Raise e ->
  local_error e
  \/ (exists status, e = _raise_error_exn status)
  \/ (exists descr, e = ClientException descr)
  \/ (exists module msg,
        op = GetDefaultVersion module
        /\ (e = InvalidModuleError (Msg msg) \/ e = InvalidVersionError (Msg msg))).
Proof.
  intros Hrun. destruct (request_of (environ c) op) as [req|e0] eqn:Hreq.
  2:{ destruct (run_operation_unsent_kind c w op e0 Hreq) as (e' & He' & Hlocal).
      left. congruence. }
  destruct op as [module|module version|op module version].
  - assert (Hget : fst (get_default_version module c w) = Raise e).
    { unfold run_operation, bind in Hrun.
      destruct (get_default_version module c w) as [[v|e'] w']; simpl in *;
        [discriminate | congruence]. }
    clear Hrun. destruct (api c req) as [r|status|descr] eqn:Ha.
    + unfold request_of in Hreq.
      destruct (_get_project_id (environ c)) as [project|] eqn:Hp; [|discriminate].
      injection Hreq as <-.
      rewrite (get_default_version_answered c w module project r Hp Ha) in Hget.
      cbn [fst] in Hget.
      destruct (response_allocations r) as [[|item items]|].
      * injection Hget as <-. right. right. right. eexists _, _. split; [reflexivity|].
        right. reflexivity.
      * destruct (allocations_loop (item :: items) (-1) None) as [[v|]|e'] eqn:Hloop.
        -- discriminate.
        -- injection Hget as <-. right. right. right. eexists _, _.
           split; [reflexivity|]. right. reflexivity.
        -- injection Hget as <-. left. exact (allocations_loop_raise_kind _ _ _ _ Hloop).
      * injection Hget as <-. right. right. right. eexists _, _. split; [reflexivity|].
        right. reflexivity.
    + rewrite (get_default_version_failed c w module req status Hreq Ha) in Hget.
      injection Hget as <-. destruct (status =? 404)%Z.
      * right. right. right. eexists _, _. split; [reflexivity|]. left. reflexivity.
      * right. left. eauto.
    + unfold request_of in Hreq.
      destruct (_get_project_id (environ c)) as [project|] eqn:Hp; [|discriminate].
      injection Hreq as <-.
      unfold get_default_version in Hget. revert Hget. run_monad. rewrite Hp.
      cbv beta iota. cbn [trace rpcs]. rewrite Ha. cbn [fst]. intros [= <-].
      right. right. left. eauto.
  - unfold run_operation, bind in Hrun.
    rewrite (get_num_instances_run c w _ _ req Hreq) in Hrun.
    unfold version_result in Hrun.
    destruct (api c req) as [r|status|descr].
    + destruct (manualScaling r); discriminate.
    + injection Hrun as <-. right. left. eauto.
    + injection Hrun as <-. right. right. left. eauto.
  - unfold run_operation in Hrun. rewrite (sync_form_run op _ _ c w req Hreq) in Hrun.
    cbn [fst] in Hrun. unfold patch_result in Hrun.
    destruct (api c req) as [r|status|descr].
    + discriminate.
    + injection Hrun as <-. right. left. eauto.
    + injection Hrun as <-. right. right. left. eauto.
Qed.

(** X15: [UnexpectedStateError] is declared and never raised: no
    operation ends with it, in any process and from any world. *)
Theorem never_UnexpectedStateError (op : operation) (c : ctx) (w : world) (a : exc_arg) :
  fst (run_operation op c w) <> Raise (UnexpectedStateError a).
Proof.
  intros H. apply run_operation_raise_kinds in H
    as [H|[(status & H)|[(descr & H)|(module & msg & _ & [H|H])]]];
    try discriminate; try contradiction.
  pose proof (_raise_error_exn_kind status) as Hk. rewrite <- H in Hk. exact Hk.
Qed.

(** X16: the operations on a version never raise [InvalidModuleError]: to
    [get_num_instances] and to the three mutating operations a 404, be it
    for a module that does not exist, is the [InvalidVersionError] of the
    shared translation. *)
Theorem version_operations_never_InvalidModuleError (c : ctx) (w : world)
    (module version : option string) :
  (forall a, fst (get_num_instances module version c w) <> Raise (InvalidModuleError a))
  /\ (forall op a, fst (sync_form op module version c w) <> Raise (InvalidModuleError a))
  /\ (forall req,
        request_of (environ c) (GetNumInstances module version) = Ok req ->
        api c req = HttpFailure 404 ->
        fst (get_num_instances module version c w)
        = Raise (InvalidVersionError (FromHttp 404)))
  /\ (forall op req,
        request_of (environ c) (Mutate op module version) = Ok req ->
        api c req = HttpFailure 404 ->
        fst (sync_form op module version c w)
        = Raise (InvalidVersionError (FromHttp 404))).
Proof.
  split; [|split; [|split]].
  - intros a H.
    assert (Hrun : fst (run_operation (GetNumInstances module version) c w)
                   = Raise (InvalidModuleError a)).
    { unfold run_operation, bind.
      destruct (get_num_instances module version c w) as [[n|e] w']; simpl in *;
        [discriminate | congruence]. }
    apply run_operation_raise_kinds in Hrun
      as [Hk|[(status & Hk)|[(descr & Hk)|(m & msg & Hop & _)]]];
      try discriminate; try contradiction.
    pose proof (_raise_error_exn_kind status) as Hs. rewrite <- Hk in Hs. exact Hs.
  - intros op a H.
    assert (Hrun : fst (run_operation (Mutate op module version) c w)
                   = Raise (InvalidModuleError a)) by exact H.
    apply run_operation_raise_kinds in Hrun
      as [Hk|[(status & Hk)|[(descr & Hk)|(m & msg & Hop & _)]]];
      try discriminate; try contradiction.
    pose proof (_raise_error_exn_kind status) as Hs. rewrite <- Hk in Hs. exact Hs.
  - intros req Hreq Ha. rewrite (get_num_instances_run c w _ _ req Hreq), Ha. reflexivity.
  - intros op req Hreq Ha. rewrite (sync_form_run op _ _ c w req Hreq), Ha. reflexivity.
Qed.

Lemma version_operations_never_InvalidModuleError_witness :
  fst (get_num_instances (Some "no-such-module") None (test_ctx (HttpFailure 404) false)
         initial_world)
  = Raise (InvalidVersionError (FromHttp 404))
  /\ fst (sync_form StopVersion (Some "no-such-module") None (test_ctx (HttpFailure 404) true)
            initial_world)
     = Raise (InvalidVersionError (FromHttp 404)).
Proof.
  split.
  - apply (proj1 (proj2 (proj2 (version_operations_never_InvalidModuleError
                                  (test_ctx (HttpFailure 404) false) initial_world
                                  (Some "no-such-module") None)))
             (VersionsGet "project" (Some "no-such-module") (Some "v1")));
      vm_compute; reflexivity.
  - apply (proj2 (proj2 (proj2 (version_operations_never_InvalidModuleError
                                  (test_ctx (HttpFailure 404) true) initial_world
                                  (Some "no-such-module") None)))
             StopVersion
             (VersionsPatch "project" (Some "no-such-module") (Some "v1") "servingStatus"
                (ServingStatusBody "STOPPED")));
      vm_compute; reflexivity.
Defined.

(** X17: the synchronous operations and the reads do not depend on when a
    started thread runs: under both choices of the scheduler an operation
    gives the same result and the same world. *)
Theorem run_operation_any_schedule (op : operation) (env : gmap string string)
    (a : request -> outcome) (w : world) :
  run_operation op {| environ := env; api := a; eager := true |} w
  = run_operation op {| environ := env; api := a; eager := false |} w.
Proof.
  destruct op as [module|module version|op module version].
  - unfold run_operation, get_default_version. run_monad. simpl environ. simpl api.
    destruct (_get_project_id env) as [project|e]; [|reflexivity].
    cbv beta iota. cbn [trace rpcs].
    destruct (a _) as [r|status|descr]; [| |reflexivity].
    + destruct (response_allocations r) as [[|item items]|]; try reflexivity.
      destruct (allocations_loop (item :: items) (-1) None) as [[v|]|e]; reflexivity.
    + destruct (status =? 404)%Z; reflexivity.
  - unfold run_operation, get_num_instances. run_monad. simpl environ. simpl api.
    destruct (default_to module get_current_module_name env); [|reflexivity].
    destruct (default_to version get_current_version_name env); [|reflexivity].
    destruct (_get_project_id env) as [project|e]; [|reflexivity].
    cbv beta iota. cbn [trace rpcs].
    destruct (a _) as [r|status|descr]; try reflexivity.
    destruct (manualScaling r); reflexivity.
  - apply sync_form_any_schedule.
Qed.

(** ** get_hostname *)

Lemma _construct_hostname_raise_kind (i v m d : option string) (e : exn) :
  _construct_hostname i v m d = Raise e -> local_error e.
Proof.
  unfold _construct_hostname.
  destruct i as [[|ch i]|], v, m, d; simpl; intros [= <-]; exact I.
Qed.

Lemma get_hostname_run (module version instance : option string) (c : ctx) (w : world)
    (m v : option string) (project : string) :
  default_to module get_current_module_name (environ c) = Ok m ->
  default_to version get_current_version_name (environ c) = Ok v ->
  _get_project_id (environ c) = Ok project ->
  get_hostname module version instance c w
  = (hostname_result instance v m (api c (AppsGet project)),
     {| trace := (trace w ++ [DiscoveryBuild]) ++ [Execute (AppsGet project)];
        rpcs := rpcs w |}).
Proof.
  intros Hm Hv Hp. unfold get_hostname. run_monad. rewrite Hm, Hv, Hp. cbv beta iota.
  cbn [trace rpcs]. unfold hostname_result.
  destruct (api c _) as [r|status|descr]; reflexivity.
Qed.

(** X18: [get_hostname] returns a hostname exactly when the version, the
    module and the answered [defaultHostname] are all present, and then it
    is the labels joined with ['.']; with any of them absent the join
    raises, after the request was sent. *)
Theorem get_hostname_returns (module version instance : option string) (c : ctx) (w : world)
    (m v : option string) (project : string) (r : response) (h : string) :
  default_to module get_current_module_name (environ c) = Ok m ->
  default_to version get_current_version_name (environ c) = Ok v ->
  _get_project_id (environ c) = Ok project ->
  api c (AppsGet project) = Returned r ->
  fst (get_hostname module version instance c w) = Ok h
  <-> exists v' m' d,
        v = Some v' /\ m = Some m' /\ defaultHostname r = Some d
        /\ h = Py.join "." (hostname_labels instance v' m' d).
Proof.
  intros Hm Hv Hp Ha.
  rewrite (get_hostname_run module version instance c w m v project Hm Hv Hp), Ha.
  cbn [fst hostname_result]. unfold _construct_hostname, hostname_labels.
  destruct instance as [[|ch i]|], v as [v'|], m as [m'|], (defaultHostname r) as [d|];
    simpl; split;
    try (intros [= <-]; eexists _, _, _; repeat split; reflexivity);
    try discriminate;
    try (intros (? & ? & ? & [= <-] & [= <-] & [= <-] & ->); reflexivity);
    intros (? & ? & ? & ? & ? & ? & ?); discriminate.
Qed.

Lemma get_hostname_returns_witness :
  fst (get_hostname None None (Some "i")
         (test_ctx (Returned {| split := None; manualScaling := None;
                                defaultHostname := Some "project.appspot.com" |}) false)
         initial_world) = Ok "i.v1.default.project.appspot.com"
  <-> exists v' m' d,
        Some "v1" = Some v' /\ Some "default" = Some m'
        /\ defaultHostname {| split := None; manualScaling := None;
                              defaultHostname := Some "project.appspot.com" |} = Some d
        /\ "i.v1.default.project.appspot.com"
           = Py.join "." (hostname_labels (Some "i") v' m' d).
Proof.
  apply (get_hostname_returns None None (Some "i")
           (test_ctx (Returned {| split := None; manualScaling := None;
                                  defaultHostname := Some "project.appspot.com" |}) false)
           initial_world (Some "default") (Some "v1") "project");
    vm_compute; reflexivity.
Defined.

(** X19: [get_hostname] raises none of the exceptions of the module, and
    the [HttpError] of its request comes out as it is, untranslated, for
    every status. *)
Theorem get_hostname_no_module_error (module version instance : option string)
    (c : ctx) (w : world) :
  (forall e, fst (get_hostname module version instance c w) = Raise e -> ~ module_error e)
  /\ (forall m v project status,
        default_to module get_current_module_name (environ c) = Ok m ->
        default_to version get_current_version_name (environ c) = Ok v ->
        _get_project_id (environ c) = Ok project ->
        api c (AppsGet project) = HttpFailure status ->
        fst (get_hostname module version instance c w) = Raise (HttpError status)).
Proof.
  split.
  - intros e.
    destruct (default_to_module_ok module (environ c)) as [m Hm].
    destruct (default_to version get_current_version_name (environ c)) as [v|e1] eqn:Hv.
    + destruct (_get_project_id (environ c)) as [project|e2] eqn:Hp.
      * rewrite (get_hostname_run module version instance c w m v project Hm Hv Hp).
        cbn [fst]. unfold hostname_result.
        destruct (api c _) as [r|status|descr].
        -- intros H. apply _construct_hostname_raise_kind in H. destruct e; tauto.
        -- intros [= <-]. exact (fun H => H).
        -- intros [= <-]. exact (fun H => H).
      * unfold get_hostname, bind, lift. rewrite Hm, Hv, Hp. cbn [fst]. intros [= <-].
        apply _get_project_id_raise_kind in Hp. destruct e2; tauto.
    + unfold get_hostname, bind, lift. rewrite Hm, Hv. cbn [fst]. intros [= <-].
      apply default_to_version_kind in Hv. destruct e1; tauto.
  - intros m v project status Hm Hv Hp Ha.
    rewrite (get_hostname_run module version instance c w m v project Hm Hv Hp), Ha.
    reflexivity.
Qed.

Lemma get_hostname_no_module_error_witness :
  fst (get_hostname None None None (test_ctx (HttpFailure 404) false) initial_world)
  = Raise (HttpError 404)
  /\ fst (get_hostname None None (Some "i") (test_ctx (HttpFailure 503) false) initial_world)
     = Raise (HttpError 503)
  /\ ~ module_error (HttpError 404).
Proof.
  split; [|split].
  - apply (proj2 (get_hostname_no_module_error None None None
                    (test_ctx (HttpFailure 404) false) initial_world)
             (Some "default") (Some "v1") "project" 404%Z); vm_compute; reflexivity.
  - apply (proj2 (get_hostname_no_module_error None None (Some "i")
                    (test_ctx (HttpFailure 503) false) initial_world)
             (Some "default") (Some "v1") "project" 503%Z); vm_compute; reflexivity.
  - apply (proj1 (get_hostname_no_module_error None None None
                    (test_ctx (HttpFailure 404) false) initial_world) (HttpError 404)).
    vm_compute. reflexivity.
Defined.

Lemma before_app (sep : ascii) (a b : string) :
  contains sep a = false -> Py.before sep (a ++ String sep b) = a.
Proof.
  induction a as [|ch a IH]; simpl.
  - intros _. rewrite Ascii.eqb_refl. reflexivity.
  - intros H. apply orb_false_iff in H as [Hch Ha]. rewrite Hch, (IH Ha). reflexivity.
Qed.

(** X20: the instance is read back from the hostname the way the module
    reads a version out of [CURRENT_VERSION_ID]: when the instance holds
    no ['.'], [hostname.split('.')[0]] is the instance. *)
Theorem _construct_hostname_first_label (ch : ascii) (i v m d h : string) :
  contains "." (String ch i) = false ->
  _construct_hostname (Some (String ch i)) (Some v) (Some m) (Some d) = Ok h ->
  index (Py.split "." None h) 0 = Ok (String ch i).
Proof.
  intros Hdot [= <-]. rewrite split_first. f_equal.
  exact (before_app "." (String ch i) (v ++ "." ++ m ++ "." ++ d)%string Hdot).
Qed.

Lemma _construct_hostname_first_label_witness :
  index (Py.split "." None "i.v1.default.project.appspot.com") 0 = Ok "i".
Proof.
  apply (_construct_hostname_first_label "i" "" "v1" "default" "project.appspot.com");
    reflexivity.
Defined.

(** ** Listing operations *)

Lemma ids_spec (items : list resource) (l : list string) :
  ids items = Ok l <-> map resource_id items = map Some l.
Proof.
  revert l. induction items as [|x items IH]; intros l; simpl.
  - split.
    + intros [= <-]. reflexivity.
    + destruct l; [reflexivity | discriminate].
  - destruct (resource_id x) as [i|].
    + destruct (ids items) as [l'|e] eqn:Hids.
      * split.
        -- intros [= <-]. simpl. f_equal. apply IH. reflexivity.
        -- destruct l as [|i' l'']; [discriminate|]. simpl. intros [= -> Hrest].
           apply IH in Hrest. congruence.
      * split; [discriminate|].
        destruct l as [|i' l'']; [discriminate|]. simpl. intros [= -> Hrest].
        apply IH in Hrest. discriminate.
    + split; [discriminate|]. destruct l; discriminate.
Qed.

Lemma ids_raise_kind (items : list resource) (e : exn) :
  ids items = Raise e -> e = KeyError "id".
Proof.
  induction items as [|x items IH]; simpl; [discriminate|].
  destruct (resource_id x); [|congruence].
  destruct (ids items); [discriminate|]. intros [= <-]. apply IH. reflexivity.
Qed.

(** X21: an answered [get_versions] returns the ids of the listed versions,
    one for each and in their order, when every version has an id (and the
    empty list when the answer has no ['versions']); it returns nothing
    else. *)
Theorem get_versions_listed (list_api : list_request -> list_outcome)
    (module : option string) (env : gmap string string) (project : string)
    (r : list_response) (l : list string) :
  _get_project_id env = Ok project ->
  list_api (VersionsList project (module_or_service env module) "FULL") = Listed r ->
  get_versions list_api module env = Ok l
  <-> map resource_id (default [] (versions r)) = map Some l.
Proof.
  intros Hp Ha. unfold get_versions. rewrite Hp, Ha. apply ids_spec.
Qed.

Lemma get_versions_listed_witness :
  get_versions (fun _ => listed_versions ["v1"; "v2"]) None test_environ = Ok ["v1"; "v2"]
  <-> map resource_id
        (default [] (versions {| services := None;
                                 versions := Some [{| resource_id := Some "v1" |};
                                                   {| resource_id := Some "v2" |}] |}))
      = map Some ["v1"; "v2"].
Proof.
  apply (get_versions_listed (fun _ => listed_versions ["v1"; "v2"]) None test_environ
           "project"); vm_compute; reflexivity.
Defined.

(** X22: [get_versions] never raises [InvalidVersionError]: the 404 that
    the shared translation would turn into it is taken before, and raised
    as [InvalidModuleError] naming the module that was listed (the
    argument, or [GAE_SERVICE], or ['default']). *)
Theorem get_versions_never_InvalidVersionError (list_api : list_request -> list_outcome)
    (module : option string) (env : gmap string string) :
  (forall a, get_versions list_api module env <> Raise (InvalidVersionError a))
  /\ (forall project,
        _get_project_id env = Ok project ->
        list_api (VersionsList project (module_or_service env module) "FULL")
        = ListHttpFailure 404 ->
        get_versions list_api module env
        = Raise (InvalidModuleError
                   (Msg ("Module '" ++ module_or_service env module ++ "' not found.")))).
Proof.
  split.
  - intros a. unfold get_versions.
    destruct (_get_project_id env) as [project|e] eqn:Hp.
    2:{ apply _get_project_id_raise_kind in Hp. intros [= ->]. exact Hp. }
    destruct (list_api _) as [r|status|descr].
    + intros H. apply ids_raise_kind in H. discriminate.
    + destruct (Z.eqb_spec status 404); [discriminate|].
      intros [= H]. pose proof (_raise_error_exn_kind status) as Hk. rewrite H in Hk.
      destruct a; simpl in Hk; intuition congruence.
    + discriminate.
  - intros project Hp Ha. unfold get_versions. rewrite Hp, Ha. reflexivity.
Qed.

Lemma get_versions_never_InvalidVersionError_witness :
  get_versions (fun _ => ListHttpFailure 404) (Some "foo") test_environ
  = Raise (InvalidModuleError (Msg "Module 'foo' not found."))
  /\ get_versions (fun _ => ListHttpFailure 404) None test_environ
     = Raise (InvalidModuleError (Msg "Module 'default' not found.")).
Proof.
  split.
  - apply (proj2 (get_versions_never_InvalidVersionError (fun _ => ListHttpFailure 404)
                    (Some "foo") test_environ) "project"); reflexivity.
  - apply (proj2 (get_versions_never_InvalidVersionError (fun _ => ListHttpFailure 404)
                    None test_environ) "project"); reflexivity.
Defined.

(** ** Waiting and checking *)

(** X23: [wait] never raises, a captured failure included, and leaves
    the handle complete: its thread has run to its end. *)
Theorem wait_completes (id : nat) (rpc : _ThreadedRpc) (c : ctx) (w : world) :
  rpcs w !! id = Some rpc ->
  fst (wait id c w) = Ok tt
  /\ exists rpc', rpcs (snd (wait id c w)) !! id = Some rpc' /\ thread rpc' = None.
Proof.
  intros Hid. unfold wait, get_rpc, bind. rewrite Hid.
  destruct (thread rpc) as [t|] eqn:Ht.
  - rewrite finish_run. cbn [fst snd rpcs]. split; [reflexivity|].
    eexists. split.
    { apply list_lookup_insert_eq. eapply lookup_lt_Some. exact Hid. }
    reflexivity.
  - cbn [fst snd ret]. split; [reflexivity|]. exists rpc. auto.
Qed.

Lemma wait_completes_witness :
  fst (wait 0 (test_ctx (HttpFailure 500) false)
         {| trace := [ThreadStart 0];
            rpcs := [pending (target_of "project" (Some "default") (Some "v1")
                                (ServingStatusBody "STOPPED") "servingStatus")] |}) = Ok tt
  /\ exists rpc',
       rpcs (snd (wait 0 (test_ctx (HttpFailure 500) false)
                    {| trace := [ThreadStart 0];
                       rpcs := [pending (target_of "project" (Some "default") (Some "v1")
                                           (ServingStatusBody "STOPPED") "servingStatus")] |}))
       !! 0%nat = Some rpc'
       /\ thread rpc' = None.
Proof.
  apply (wait_completes 0
           (pending (target_of "project" (Some "default") (Some "v1")
                       (ServingStatusBody "STOPPED") "servingStatus"))).
  reflexivity.
Defined.

(** X24: [check_success] does not wait: called on the handle of an
    asynchronous form whose thread has not run yet, it returns without
    raising and no request has been sent, whatever the request would be
    answered. *)
Theorem check_success_does_not_wait (op : mutation) (module version : option string)
    (c : ctx) (w : world) (req : request) :
  request_of (environ c) (Mutate op module version) = Ok req ->
  eager c = false ->
  fst ((rpc <- async_form op module version ;; check_success rpc) c w) = Ok tt
  /\ executed (trace (snd ((rpc <- async_form op module version ;; check_success rpc) c w)))
     = executed (trace w).
Proof.
  intros Hreq Hlazy. destruct (async_form_run op module version c w req Hreq) as (t & _ & E).
  unfold bind. rewrite E, new_ThreadedRpc_run, Hlazy.
  unfold check_success, get_rpc, bind, ret. cbn [trace rpcs]. rewrite lookup_snoc.
  cbn [pending exception fst snd trace]. split; [reflexivity|].
  rewrite executed_app. simpl. apply app_nil_r.
Qed.

Lemma check_success_does_not_wait_witness :
  fst ((rpc <- async_form StopVersion None None ;; check_success rpc)
         (test_ctx (HttpFailure 500) false) initial_world) = Ok tt
  /\ executed (trace (snd ((rpc <- async_form StopVersion None None ;; check_success rpc)
                             (test_ctx (HttpFailure 500) false) initial_world)))
     = executed (trace initial_world).
Proof.
  apply (check_success_does_not_wait StopVersion None None (test_ctx (HttpFailure 500) false)
           initial_world
           (VersionsPatch "project" (Some "default") (Some "v1") "servingStatus"
              (ServingStatusBody "STOPPED")));
    vm_compute; reflexivity.
Defined.

(** ** get_modules *)

(** X25: [get_modules] never returns a list.  It raises in every
    environment, whatever [google.auth.default()] does and whatever the
    API would answer; once the project id is resolved and the credentials
    pair is returned, it raises the [AttributeError] of
    [credentials.authorize] on that pair, so that the list request is
    never reached. *)
Theorem get_modules_never_returns (auth_default : auth_outcome)
    (list_api : list_request -> list_outcome) (env : gmap string string) :
  raises (get_modules auth_default list_api env)
  /\ (forall project,
        _get_project_id env = Ok project ->
        get_modules AuthReturned list_api env
        = Raise (AttributeError "'tuple' object has no attribute 'authorize'"))
  /\ (forall list_api', get_modules auth_default list_api' env
                        = get_modules auth_default list_api env).
Proof.
  unfold get_modules, authorize_pair. split; [|split].
  - destruct (_get_project_id env); [|exact I]. destruct auth_default; exact I.
  - intros project ->. reflexivity.
  - intros list_api'. destruct (_get_project_id env); [|reflexivity].
    destruct auth_default; reflexivity.
Qed.

Lemma get_modules_never_returns_witness :
  get_modules AuthReturned
    (fun _ => Listed {| services := Some [{| resource_id := Some "module1" |};
                                          {| resource_id := Some "default" |}];
                        versions := None |})
    test_environ
  = Raise (AttributeError "'tuple' object has no attribute 'authorize'").
Proof.
  apply (proj1 (proj2 (get_modules_never_returns AuthReturned
                         (fun _ => Listed {| services := Some [{| resource_id := Some "module1" |};
                                                               {| resource_id := Some "default" |}];
                                             versions := None |})
                         test_environ)) "project").
  reflexivity.
Defined.
